(** * A shallow embedding of the chat client [ChatClient] (chat_client.py)

    The object's fields are a record [session]; every method is a function
    from a session (and the method's arguments) to its result and the new
    session.  The shared lock only serialises the methods, so each method
    body is one atomic step of the model.  Network effects are explicit:
    a send takes a boolean telling whether [sock.sendall] succeeded, a
    receive takes the decoded text it returned.  Text is ASCII
    [String.string]; [utf-8] decoding is taken as the identity on it. *)

From Stdlib Require Import Strings.String Strings.Ascii Lists.List Bool Arith Lia.
Import ListNotations.
Open Scope list_scope.
Open Scope string_scope.

(** ** Python string helpers *)

Definition nl_char : ascii := "010"%char.
Definition nl : string := String nl_char EmptyString.
Definition quote_char : ascii := "'"%char.
Definition space_char : ascii := " "%char.

(** [str.isspace] on ASCII: \t \n \v \f \r, the separators \x1c-\x1f, and ' '. *)
Definition is_ws (c : ascii) : bool :=
  let n := nat_of_ascii c in
  (Nat.leb 9 n && Nat.leb n 13) || (Nat.leb 28 n && Nat.leb n 32).

Fixpoint lstrip (s : string) : string :=
  match s with
  | EmptyString => EmptyString
  | String c r => if is_ws c then lstrip r else s
  end.

Fixpoint rstrip (s : string) : string :=
  match s with
  | EmptyString => EmptyString
  | String c r =>
      let r' := rstrip r in
      if (r' =? "") && is_ws c then EmptyString else String c r'
  end.

(** [s.strip()] *)
Definition strip (s : string) : string := rstrip (lstrip s).

(** [s.startswith(p)] *)
Definition startswith (s p : string) : bool := prefix p s.

(** [sub in s] *)
Fixpoint contains (sub s : string) : bool :=
  prefix sub s ||
  match s with
  | EmptyString => false
  | String _ r => contains sub r
  end.

(** [s.endswith(suf)] *)
Fixpoint endswith (s suf : string) : bool :=
  (s =? suf) ||
  match s with
  | EmptyString => false
  | String _ r => endswith r suf
  end.

(** [s[n:]] *)
Fixpoint drop (n : nat) (s : string) : string :=
  match n, s with
  | 0, _ => s
  | S _, EmptyString => EmptyString
  | S m, String _ r => drop m r
  end.

(** Split at the first occurrence of the one-character separator [c]. *)
Fixpoint split_once (c : ascii) (s : string) : option (string * string) :=
  match s with
  | EmptyString => None
  | String d r =>
      if Ascii.eqb d c then Some (EmptyString, r)
      else match split_once c r with
           | Some (a, b) => Some (String d a, b)
           | None => None
           end
  end.

(** [s.split(c, maxsplit)] for a one-character separator. *)
Fixpoint py_split (c : ascii) (maxsplit : nat) (s : string) : list string :=
  match maxsplit with
  | 0 => [s]
  | S m =>
      match split_once c s with
      | None => [s]
      | Some (a, b) => a :: py_split c m b
      end
  end.

(** Python truthiness of an [Optional[str]]. *)
Definition truthy (o : option string) : bool :=
  match o with
  | Some s => negb (s =? "")
  | None => false
  end.

(** [self._current_target == s] *)
Definition target_is (o : option string) (s : string) : bool :=
  match o with
  | Some t => t =? s
  | None => false
  end.

(** [list.pop()]: removes and returns the last element. *)
Fixpoint pop_last (l : list string) : option (list string * string) :=
  match l with
  | [] => None
  | [x] => Some ([], x)
  | x :: r =>
      match pop_last r with
      | Some (r', y) => Some (x :: r', y)
      | None => Some ([], x)
      end
  end.

(** ** Client state *)

Record session := mk_session {
  connected : bool;                (** [self._connected] *)
  current_target : option string;  (** [self._current_target] *)
  target_stack : list string;      (** [self._target_stack], top is the last element *)
  name : string;                   (** [self.name] *)
  sock_closed : bool;              (** [self.sock.close()] was called *)
  wire : list string               (** every text given to [sock.sendall], in order *)
}.

Definition set_connected (b : bool) (st : session) : session :=
  mk_session b (current_target st) (target_stack st) (name st) (sock_closed st) (wire st).
Definition set_target (t : option string) (st : session) : session :=
  mk_session (connected st) t (target_stack st) (name st) (sock_closed st) (wire st).
Definition set_stack (l : list string) (st : session) : session :=
  mk_session (connected st) (current_target st) l (name st) (sock_closed st) (wire st).
Definition set_name (n : string) (st : session) : session :=
  mk_session (connected st) (current_target st) (target_stack st) n (sock_closed st) (wire st).
Definition mark_closed (st : session) : session :=
  mk_session (connected st) (current_target st) (target_stack st) (name st) true (wire st).
Definition write_wire (text : string) (st : session) : session :=
  mk_session (connected st) (current_target st) (target_stack st) (name st) (sock_closed st)
             (wire st ++ [text])%list.

(** [__init__] *)
Definition init_session : session := mk_session false None [] "" false [].

(** [connect]: [ok] tells whether [sock.connect] succeeded. *)
Definition connect (st : session) (ok : bool) : bool * session :=
  if ok then (true, set_connected true st) else (false, st).

(** [_set_disconnected] *)
Definition set_disconnected (st : session) : session :=
  set_stack [] (set_target None (set_connected false st)).

(** [_safe_send]: [ok] tells whether [sock.sendall] succeeded. *)
Definition safe_send (st : session) (text : string) (ok : bool) : bool * session :=
  if ok then (true, write_wire text st) else (false, set_disconnected st).

(** [close] *)
Definition close (st : session) : session := set_disconnected (mark_closed st).

(** [handshake]: [reply] is [Some] the decoded text of [sock.recv(1024)],
    or [None] when it raised [OSError]. *)
Definition handshake (st : session) (name0 : string) (send_ok : bool)
    (reply : option string) : string * session :=
  let nm := strip name0 in
  if nm =? "" then ("RETRY", st) else
  let (sent, st1) := safe_send st ("HELLO " ++ nm ++ nl) send_ok in
  if negb sent then ("EXIT", st1) else
  match reply with
  | None => ("EXIT", set_disconnected st1)
  | Some raw =>
      let r := strip raw in
      if contains "Server full" r then ("EXIT", close st1)
      else if startswith r "ERR" then ("RETRY", st1)
      else if startswith r "OK" then ("OK", set_name nm st1)
      else ("RETRY", st1)
  end.

(** [open_chat] *)
Definition open_chat (st : session) (target0 : string) : session :=
  let target := strip target0 in
  if target =? "" then st else
  let prev := current_target st in
  let st1 := match prev with
             | Some p => if truthy prev && negb (p =? target)
                         then set_stack (target_stack st ++ [p])%list st else st
             | None => st
             end in
  set_target (Some target) st1.

(** [end_current_chat] *)
Definition end_current_chat (st : session) (send_ok : bool) : bool * session :=
  match current_target st with
  | Some target =>
      if negb (truthy (Some target)) then (true, st) else
      let (sent, st1) := safe_send st ("END " ++ target ++ nl) send_ok in
      if negb sent then (false, st1) else
      match pop_last (target_stack st1) with
      | Some (rest, back_to) => (true, set_target (Some back_to) (set_stack rest st1))
      | None => (true, set_target None st1)
      end
  | None => (true, st)
  end.

(** [send_to_current] *)
Definition send_to_current (st : session) (message : string) (send_ok : bool) : bool * session :=
  match current_target st with
  | Some target =>
      if negb (truthy (Some target)) then (true, st)
      else safe_send st ("TO " ++ target ++ " " ++ message ++ nl) send_ok
  | None => (true, st)
  end.

(** [send_one_off] *)
Definition send_one_off (st : session) (raw_to_command : string) (send_ok : bool) : bool * session :=
  let cmd := if endswith raw_to_command nl then raw_to_command else raw_to_command ++ nl in
  safe_send st cmd send_ok.

(** ** Receiver thread ([_recv_loop]) *)

(** The [SYS END] branch, under the lock. *)
Definition on_sys_end (st : session) (sender : string) : session * string :=
  if target_is (current_target st) sender then
    match pop_last (target_stack st) with
    | Some (rest, back_to) =>
        (set_target (Some back_to) (set_stack rest st),
         "[System] " ++ sender ++ " ended the chat. Back to chat with " ++ back_to ++ ".")
    | None =>
        (set_target None st, "[System] " ++ sender ++ " ended the chat. Chat closed.")
    end
  else (st, "[System] " ++ sender ++ " ended the chat.").

(** The unavailable-user branch, under the lock. *)
Definition on_unavailable (st : session) (user : string) : session * list string :=
  if target_is (current_target st) user then
    match pop_last (target_stack st) with
    | Some (rest, back_to) =>
        (set_target (Some back_to) (set_stack rest st),
         ["[System] Chat closed: " ++ user ++ " is unavailable. Back to chat with " ++ back_to ++ "."])
    | None =>
        (set_target None st, ["[System] Chat closed: " ++ user ++ " is unavailable."])
    end
  else (st, []).

(** One stripped non-empty line of the inner [while] loop: the new session
    and what it prints. *)
Definition handle_line (st : session) (line : string) : session * list string :=
  let from_out :=
    if startswith line "FROM " then
      let parts := py_split space_char 2 line in
      let sender := match nth_error parts 1 with Some p => strip p | None => "" end in
      if negb (sender =? "") then
        ["[System] New message from " ++ sender ++ ". Use: TO " ++ sender ++ " to reply."]
      else []
    else [] in
  if startswith line "SYS END " then
    let sender := strip (drop (String.length "SYS END ") line) in
    let (st1, msg) := on_sys_end st sender in
    (st1, from_out ++ [msg])%list
  else
    let (st1, err_out) :=
      if startswith line "ERR User '" &&
         (contains "' not found" line || contains "' disconnected" line) then
        let user := nth_error (py_split quote_char 2 line) 1 in
        if truthy user then
          match user with Some u => on_unavailable st u | None => (st, []) end
        else (st, [])
      else (st, []) in
    (st1, from_out ++ err_out ++ [line])%list.

(** [while "\n" in buffer: line, buffer = buffer.split("\n", 1) ...];
    [fuel] bounds the iterations (each one consumes at least one character).
    Returns the session, the printed lines and the remaining buffer. *)
Fixpoint drain_lines (fuel : nat) (st : session) (buffer : string)
    : session * list string * string :=
  match fuel with
  | 0 => (st, [], buffer)
  | S f =>
      match split_once nl_char buffer with
      | None => (st, [], buffer)
      | Some (line0, rest) =>
          let line := strip line0 in
          if line =? "" then drain_lines f st rest
          else
            let (st1, o1) := handle_line st line in
            let '(st2, o2, b) := drain_lines f st1 rest in
            (st2, o1 ++ o2, b)%list
      end
  end.

(** What one [self.sock.recv(1024)] gives: decoded data ([""] is the
    end of the stream) or an [OSError]. *)
Inductive recv_result :=
| RecvData (data : string)
| RecvOSError.

(** The outer [while True] loop over the successive results of [recv].
    When the results run out, the thread is blocked in [recv]. *)
Fixpoint recv_loop (st : session) (buffer : string) (results : list recv_result)
    : session * list string :=
  match results with
  | [] => (st, [])
  | RecvOSError :: _ =>
      (set_disconnected st, ["[System] Disconnected from server (socket error)."])
  | RecvData data :: more =>
      if data =? "" then
        (set_disconnected st, ["[System] Server closed the connection."])
      else
        let buffer1 := buffer ++ data in
        let '(st1, o1, b1) := drain_lines (S (String.length buffer1)) st buffer1 in
        let (st2, o2) := recv_loop st1 b1 more in
        (st2, o1 ++ o2)%list
  end.

(** ** All atomic steps of a session *)

(** Each method call of the main thread, and each event of the receiver
    thread, with the outcome of its network operation. *)
Inductive op :=
| OpConnect (ok : bool)
| OpHandshake (nm : string) (send_ok : bool) (reply : option string)
| OpOpenChat (target : string)
| OpEndChat (send_ok : bool)
| OpSendCurrent (message : string) (send_ok : bool)
| OpSendOneOff (raw : string) (send_ok : bool)
| OpClose
| OpRecvLine (line : string)
| OpRecvEOF
| OpRecvOSError.

Definition run_op (st : session) (o : op) : session :=
  match o with
  | OpConnect ok => snd (connect st ok)
  | OpHandshake nm ok reply => snd (handshake st nm ok reply)
  | OpOpenChat t => open_chat st t
  | OpEndChat ok => snd (end_current_chat st ok)
  | OpSendCurrent m ok => snd (send_to_current st m ok)
  | OpSendOneOff r ok => snd (send_one_off st r ok)
  | OpClose => close st
  | OpRecvLine l => fst (handle_line st l)
  | OpRecvEOF => set_disconnected st
  | OpRecvOSError => set_disconnected st
  end.

Fixpoint run_ops (st : session) (os : list op) : session :=
  match os with
  | [] => st
  | o :: r => run_ops (run_op st o) r
  end.

(** A session with current target [t] and history [h]. *)
Definition chatting (t : option string) (h : list string) : session :=
  mk_session true t h "me" false [].

(** ** The command-line loop ([run_cli]) and the start-up loop ([main]) *)

(** [str.lower] and [str.upper] on ASCII. *)
Definition char_lower (c : ascii) : ascii :=
  let n := nat_of_ascii c in
  if Nat.leb 65 n && Nat.leb n 90 then ascii_of_nat (n + 32) else c.
Definition char_upper (c : ascii) : ascii :=
  let n := nat_of_ascii c in
  if Nat.leb 97 n && Nat.leb n 122 then ascii_of_nat (n - 32) else c.

Fixpoint str_map (f : ascii -> ascii) (s : string) : string :=
  match s with
  | EmptyString => EmptyString
  | String c r => String (f c) (str_map f r)
  end.

Definition str_lower (s : string) : string := str_map char_lower s.
Definition str_upper (s : string) : string := str_map char_upper s.

(** The first whitespace-free run of [s] and what follows it. *)
Fixpoint take_token (s : string) : string * string :=
  match s with
  | EmptyString => (EmptyString, EmptyString)
  | String c r =>
      if is_ws c then (EmptyString, s)
      else let (tok, rest) := take_token r in (String c tok, rest)
  end.

(** [s.split(maxsplit=m)]: whitespace runs separate the fields, leading
    whitespace is skipped, and after [m] splits the rest (with its leading
    whitespace removed) is the last field. *)
Fixpoint split_ws (maxsplit : nat) (s : string) : list string :=
  let s' := lstrip s in
  if s' =? "" then []
  else match maxsplit with
       | 0 => [s']
       | S m => let (tok, rest) := take_token s' in tok :: split_ws m rest
       end.

(** [run_cli]: each input line comes with the outcome of the send it may
    trigger.  A [break] leaves the loop and calls [close]; when the inputs
    run out, the thread is blocked in [input()]. *)
Fixpoint run_cli (st : session) (inputs : list (string * bool)) : session :=
  if negb (connected st) then close st else
  match inputs with
  | [] => st
  | (raw, ok) :: more =>
      let user_input := strip raw in
      if user_input =? "" then run_cli st more else
      let low := str_lower user_input in
      if (low =? "exit") || (low =? "quit") then close st else
      if str_upper user_input =? "END" then
        let (r, st1) := end_current_chat st ok in
        if negb r then close st1 else run_cli st1 more
      else if startswith (str_upper user_input) "TO " then
        let parts := split_ws 2 user_input in
        if Nat.eqb (List.length parts) 2 then
          let target := match nth_error parts 1 with Some p => strip p | None => "" end in
          if target =? "" then run_cli st more
          else run_cli (open_chat st target) more
        else
          let (r, st1) := send_one_off st user_input ok in
          if negb r then close st1 else run_cli st1 more
      else
        let (r, st1) := send_to_current st user_input ok in
        if negb r then close st1 else run_cli st1 more
  end.

(** The handshake loop of [main]: [inputs] are the lines typed at the name
    prompts, [replies] the outcome of each handshake's send and receive.
    The result is "OK" (go on to the receiver and the CLI), "EXIT" (return),
    or "BLOCKED" when the inputs or replies run out.  [fuel] bounds the
    iterations; each one consumes an input or a reply. *)
Fixpoint main_loop (fuel : nat) (st : session) (nm : string) (inputs : list string)
    (replies : list (bool * option string)) : string * session :=
  match fuel with
  | 0 => ("BLOCKED", st)
  | S f =>
      if nm =? "" then
        match inputs with
        | [] => ("BLOCKED", st)
        | i :: ins => main_loop f st (strip i) ins replies
        end
      else
        match replies with
        | [] => ("BLOCKED", st)
        | (ok, rep) :: reps =>
            let (status, st1) := handshake st nm ok rep in
            if status =? "OK" then ("OK", st1)
            else if status =? "EXIT" then ("EXIT", st1)
            else match inputs with
                 | [] => ("BLOCKED", st1)
                 | i :: ins => main_loop f st1 (strip i) ins reps
                 end
        end
  end.

(** [main] up to the start of the receiver: connect, take the name from
    [sys.argv[1]] or the first prompt, then the handshake loop.  "NOCONNECT"
    is the early return after a failed connect. *)
Definition main_start (connect_ok : bool) (argv1 : option string) (inputs : list string)
    (replies : list (bool * option string)) : string * session :=
  let (c, st0) := connect init_session connect_ok in
  if negb c then ("NOCONNECT", st0) else
  let fuel := S (List.length inputs + List.length replies) in
  match argv1 with
  | Some a => main_loop fuel st0 (strip a) inputs replies
  | None =>
      match inputs with
      | [] => ("BLOCKED", st0)
      | i :: ins => main_loop fuel st0 (strip i) ins replies
      end
  end.

Example ex_split_ws : split_ws 2 "TO  bob  hi there " = ["TO"; "bob"; "hi there "].
Proof. reflexivity. Qed.

Example ex_run_cli :
  current_target (run_cli (chatting None []) [("to bob", true); ("hi", true)]) = Some "bob".
Proof. reflexivity. Qed.

Example ex_err_restore :
  fst (recv_loop (chatting (Some "A") ["B"; "C"]) "" [RecvData ("ERR User 'A' not found" ++ nl)])
  = chatting (Some "C") ["B"].
Proof. reflexivity. Qed.

Example ex_split : py_split space_char 2 "FROM A hi there" = ["FROM"; "A"; "hi there"].
Proof. reflexivity. Qed.

Example ex_strip : strip "  a b  " = "a b".
Proof. reflexivity. Qed.

(** ** Lemmas on the string helpers *)

Lemma prefix_app (s t : string) : prefix s (s ++ t) = true.
Proof.
  induction s as [|c s IH]; simpl; [now destruct t|].
  destruct (ascii_dec c c); [exact IH | congruence].
Qed.

Lemma startswith_app (s t : string) : startswith (s ++ t) s = true.
Proof. apply prefix_app. Qed.

Lemma string_app_assoc (a b c : string) : (a ++ b) ++ c = a ++ (b ++ c).
Proof. induction a as [|x a IH]; simpl; congruence. Qed.

Lemma contains_app_r (sub s1 s2 : string) :
  contains sub s2 = true -> contains sub (s1 ++ s2) = true.
Proof.
  intros H. induction s1 as [|c s1 IH]; simpl; [exact H|].
  rewrite IH. apply orb_true_r.
Qed.

Lemma contains_here (sub t : string) : contains sub (sub ++ t) = true.
Proof.
  pose proof (prefix_app sub t) as H. revert H.
  generalize (sub ++ t). intros u H.
  destruct u; cbn [contains]; rewrite H; reflexivity.
Qed.

Lemma endswith_refl (s : string) : endswith s s = true.
Proof. destruct s; cbn [endswith]; rewrite String.eqb_refl; reflexivity. Qed.

Lemma endswith_app (a s suf : string) :
  endswith s suf = true -> endswith (a ++ s) suf = true.
Proof.
  intros H. induction a as [|c a IH]; simpl; [exact H|].
  rewrite IH. apply orb_true_r.
Qed.

Lemma endswith_app_nl (a : string) : endswith (a ++ nl) nl = true.
Proof. apply endswith_app, endswith_refl. Qed.

Lemma drop_app (s1 s2 : string) : drop (String.length s1) (s1 ++ s2) = s2.
Proof. induction s1; simpl; auto. Qed.

Lemma lstrip_length (s : string) : String.length (lstrip s) <= String.length s.
Proof. induction s as [|c s IH]; simpl; [lia|]. destruct (is_ws c); simpl; lia. Qed.

Lemma rstrip_length (s : string) : String.length (rstrip s) <= String.length s.
Proof.
  induction s as [|c s IH]; simpl; [lia|].
  destruct ((rstrip s =? "") && is_ws c); simpl; lia.
Qed.

Lemma lstrip_same_length (s : string) :
  String.length (lstrip s) = String.length s -> lstrip s = s.
Proof.
  destruct s as [|c s]; simpl; [auto|].
  destruct (is_ws c); [|auto].
  pose proof (lstrip_length s). simpl. lia.
Qed.

Lemma rstrip_same_length (s : string) :
  String.length (rstrip s) = String.length s -> rstrip s = s.
Proof.
  induction s as [|c s IH]; simpl; [auto|].
  destruct ((rstrip s =? "") && is_ws c); simpl; [lia|].
  intros H. rewrite IH; [reflexivity | lia].
Qed.

Lemma strip_fixed (n : string) :
  strip n = n -> lstrip n = n /\ rstrip n = n.
Proof.
  unfold strip. intros H.
  pose proof (lstrip_length n). pose proof (rstrip_length (lstrip n)).
  assert (E : lstrip n = n).
  { apply lstrip_same_length. rewrite H in *. lia. }
  rewrite E in H. auto.
Qed.

Lemma rstrip_app (s1 s2 : string) :
  rstrip s2 <> "" -> rstrip (s1 ++ s2) = s1 ++ rstrip s2.
Proof.
  intros H. induction s1 as [|c s1 IH]; simpl; [reflexivity|].
  rewrite IH.
  destruct (s1 ++ rstrip s2) eqn:E.
  - destruct s1; simpl in E; [contradiction | discriminate].
  - simpl. reflexivity.
Qed.

Lemma lstrip_not_ws (c : ascii) (s : string) :
  is_ws c = false -> lstrip (String c s) = String c s.
Proof. intros H. simpl. now rewrite H. Qed.

(** A stripped string does not start with a space. *)
Lemma lstrip_fixed_no_space (r : string) :
  lstrip (String space_char r) <> String space_char r.
Proof.
  simpl. intros H. pose proof (lstrip_length r).
  apply (f_equal String.length) in H. simpl in H. lia.
Qed.

(** [strip] leaves no leading whitespace. *)
Lemma lstrip_strip (s : string) : lstrip (strip s) = strip s.
Proof.
  unfold strip.
  induction s as [|c s IH]; simpl; [reflexivity|].
  destruct (is_ws c) eqn:W; [exact IH|].
  simpl. destruct ((rstrip s =? "") && is_ws c) eqn:E.
  - rewrite W, andb_false_r in E. discriminate.
  - simpl. now rewrite W.
Qed.

Lemma contains_char_false (c : ascii) (s : string) :
  contains (String c "") s = false -> split_once c s = None.
Proof.
  induction s as [|d s IH]; simpl; [auto|].
  destruct (ascii_dec c d) as [E|Hne]; simpl.
  - destruct s; discriminate.
  - intros H. rewrite IH by exact H.
    destruct (Ascii.eqb d c) eqn:E; [|reflexivity].
    apply Ascii.eqb_eq in E. congruence.
Qed.

Lemma contains_char_of (c : ascii) (x s : string) :
  contains (String c x) s = true -> contains (String c "") s = true.
Proof.
  induction s as [|d s IH]; simpl; [discriminate|].
  destruct (ascii_dec c d); simpl.
  - intros _. destruct s; reflexivity.
  - destruct s; simpl in *; [discriminate|]. exact IH.
Qed.

Lemma contains_skip (c : ascii) (x s1 s2 : string) :
  split_once c s1 = None ->
  contains (String c x) (s1 ++ s2) = true -> contains (String c x) s2 = true.
Proof.
  induction s1 as [|d s1 IH]; simpl; [auto|].
  destruct (Ascii.eqb d c) eqn:E; [discriminate|].
  destruct (split_once c s1) as [[a b]|]; [discriminate|].
  intros _.
  destruct (ascii_dec c d) as [Ecd|Hne].
  - subst d. rewrite Ascii.eqb_refl in E. discriminate.
  - simpl. apply IH. reflexivity.
Qed.

Lemma split_once_app (c : ascii) (s1 s2 : string) :
  split_once c s1 = None -> split_once c (s1 ++ String c s2) = Some (s1, s2).
Proof.
  induction s1 as [|d s1 IH]; simpl.
  - now rewrite Ascii.eqb_refl.
  - destruct (Ascii.eqb d c); [discriminate|].
    destruct (split_once c s1) as [[a b]|]; [discriminate|].
    intros _. now rewrite IH.
Qed.

Lemma pop_last_snoc (l : list string) (x : string) :
  pop_last (l ++ [x])%list = Some (l, x).
Proof.
  induction l as [|y l IH]; [reflexivity|].
  simpl. rewrite IH. destruct l; reflexivity.
Qed.

Lemma pop_last_none (l : list string) : pop_last l = None -> l = [].
Proof.
  destruct l as [|x [|y l]]; [auto | discriminate |].
  cbn [pop_last].
  match goal with |- match ?m with _ => _ end = None -> _ => destruct m as [[? ?]|] end;
    intros H; discriminate H.
Qed.

Lemma pop_last_some (l rest : list string) (x : string) :
  pop_last l = Some (rest, x) -> l = (rest ++ [x])%list.
Proof.
  revert rest. induction l as [|y l IH]; intros rest; simpl; [discriminate|].
  destruct l as [|z l].
  - intros H. inversion H. reflexivity.
  - destruct (pop_last (z :: l)) as [[r' w]|] eqn:E.
    + intros H. inversion H; subst. simpl. rewrite (IH r') by reflexivity. reflexivity.
    + intros H. exfalso. apply pop_last_none in E. discriminate.
Qed.

(** ** The session invariant

    Every target ever installed comes from [open_chat] (stripped, non-empty)
    or from the history stack, and the history is only non-empty while a
    target is active. *)

Definition valid_target (s : string) : Prop := s <> "" /\ lstrip s = s.

Definition wf (st : session) : Prop :=
  (current_target st = None -> target_stack st = []) /\
  (forall t, current_target st = Some t -> valid_target t) /\
  Forall valid_target (target_stack st).

Lemma wf_intro (st : session) :
  (current_target st = None -> target_stack st = []) ->
  (forall t, current_target st = Some t -> valid_target t) ->
  Forall valid_target (target_stack st) -> wf st.
Proof. unfold wf. auto. Qed.

Lemma wf_init : wf init_session.
Proof. apply wf_intro; simpl; auto; discriminate. Qed.

Lemma wf_same_chat (st st' : session) :
  current_target st' = current_target st -> target_stack st' = target_stack st ->
  wf st -> wf st'.
Proof. unfold wf. intros -> ->. auto. Qed.

Lemma wf_set_disconnected (st : session) : wf (set_disconnected st).
Proof. apply wf_intro; simpl; auto; discriminate. Qed.

Lemma wf_safe_send (st : session) (text : string) (ok : bool) :
  wf st -> wf (snd (safe_send st text ok)).
Proof.
  destruct ok; simpl; [apply wf_same_chat; reflexivity | intros _; apply wf_set_disconnected].
Qed.

Lemma wf_pop (st : session) (rest : list string) (b : string) :
  wf st -> pop_last (target_stack st) = Some (rest, b) ->
  wf (set_target (Some b) (set_stack rest st)).
Proof.
  intros (H1 & H2 & H3) Hp. apply pop_last_some in Hp.
  rewrite Hp in H3. apply Forall_app in H3 as [Hr Hb].
  apply wf_intro; simpl; [discriminate | | exact Hr].
  intros t E. inversion E; subst. now inversion Hb.
Qed.

Lemma wf_pop_none (st : session) :
  pop_last (target_stack st) = None -> wf (set_target None st).
Proof.
  intros Hp. apply pop_last_none in Hp.
  apply wf_intro; simpl; [auto | discriminate | rewrite Hp; auto].
Qed.

Lemma wf_open_chat (st : session) (t : string) : wf st -> wf (open_chat st t).
Proof.
  intros (H1 & H2 & H3). unfold open_chat.
  destruct (strip t =? "") eqn:E; [exact (conj H1 (conj H2 H3))|].
  assert (Hv : valid_target (strip t)).
  { split; [now apply String.eqb_neq | apply lstrip_strip]. }
  assert (Hs : forall t', Some (strip t) = Some t' -> valid_target t').
  { intros t' E'. inversion E'; subst. exact Hv. }
  destruct (current_target st) as [p|] eqn:Ec.
  - destruct (truthy (Some p) && negb (p =? strip t)); simpl.
    + apply wf_intro; simpl; [discriminate | exact Hs |].
      apply Forall_app. split; [exact H3|]. constructor; [|constructor]. now apply H2.
    + apply wf_intro; simpl; [discriminate | exact Hs | exact H3].
  - apply wf_intro; simpl; [discriminate | exact Hs | exact H3].
Qed.

Lemma wf_handshake (st : session) (nm : string) (ok : bool) (r : option string) :
  wf st -> wf (snd (handshake st nm ok r)).
Proof.
  intros H. unfold handshake.
  destruct (strip nm =? ""); [exact H|].
  destruct ok; simpl; [|apply wf_set_disconnected].
  destruct r as [raw|]; [|apply wf_set_disconnected].
  destruct (contains "Server full" (strip raw)); [apply wf_set_disconnected|].
  destruct (startswith (strip raw) "ERR"); [apply wf_same_chat with st; auto|].
  destruct (startswith (strip raw) "OK"); apply wf_same_chat with st; auto.
Qed.

Lemma wf_end_current_chat (st : session) (ok : bool) :
  wf st -> wf (snd (end_current_chat st ok)).
Proof.
  intros H. unfold end_current_chat.
  destruct (current_target st) as [t|]; [|exact H].
  destruct (negb (truthy (Some t))); [exact H|].
  destruct ok; simpl; [|apply wf_set_disconnected].
  destruct (pop_last (target_stack st)) as [[rest b]|] eqn:Ep.
  - apply (wf_pop (write_wire ("END " ++ t ++ nl) st)); [|exact Ep].
    apply wf_same_chat with st; auto.
  - apply (wf_pop_none (write_wire ("END " ++ t ++ nl) st)). exact Ep.
Qed.

Lemma wf_on_sys_end (st : session) (s : string) : wf st -> wf (fst (on_sys_end st s)).
Proof.
  intros H. unfold on_sys_end.
  destruct (target_is (current_target st) s); [|exact H].
  destruct (pop_last (target_stack st)) as [[rest b]|] eqn:Ep.
  - exact (wf_pop st rest b H Ep).
  - exact (wf_pop_none st Ep).
Qed.

Lemma wf_on_unavailable (st : session) (s : string) : wf st -> wf (fst (on_unavailable st s)).
Proof.
  intros H. unfold on_unavailable.
  destruct (target_is (current_target st) s); [|exact H].
  destruct (pop_last (target_stack st)) as [[rest b]|] eqn:Ep.
  - exact (wf_pop st rest b H Ep).
  - exact (wf_pop_none st Ep).
Qed.

(** The receiver's line step either keeps the session or is one of the
    two locked branches. *)
Lemma handle_line_cases (st : session) (line : string) :
  fst (handle_line st line) = st \/
  (exists s, fst (handle_line st line) = fst (on_sys_end st s)) \/
  (exists u, fst (handle_line st line) = fst (on_unavailable st u)).
Proof.
  unfold handle_line.
  destruct (startswith line "SYS END ").
  - right; left. eexists. destruct (on_sys_end _ _) as [s1 m] eqn:E. simpl.
    rewrite E. reflexivity.
  - destruct (_ && _); [|left; reflexivity].
    destruct (truthy _) eqn:Et; [|left; reflexivity].
    destruct (nth_error _ 1) as [u|]; [|left; reflexivity].
    right; right. exists u. destruct (on_unavailable st u). reflexivity.
Qed.

Lemma wf_handle_line (st : session) (line : string) : wf st -> wf (fst (handle_line st line)).
Proof.
  intros H. destruct (handle_line_cases st line) as [E|[[s E]|[u E]]]; rewrite E.
  - exact H.
  - now apply wf_on_sys_end.
  - now apply wf_on_unavailable.
Qed.

Lemma wf_run_op (st : session) (o : op) : wf st -> wf (run_op st o).
Proof.
  intros H. destruct o; simpl.
  - destruct ok; simpl; [apply wf_same_chat with st|]; auto.
  - now apply wf_handshake.
  - now apply wf_open_chat.
  - now apply wf_end_current_chat.
  - unfold send_to_current. destruct (current_target st); [|exact H].
    destruct (negb _); [exact H|]. now apply wf_safe_send.
  - now apply wf_safe_send.
  - apply wf_set_disconnected.
  - now apply wf_handle_line.
  - apply wf_set_disconnected.
  - apply wf_set_disconnected.
Qed.

Lemma wf_run_ops (st : session) (os : list op) : wf st -> wf (run_ops st os).
Proof.
  revert st. induction os as [|o os IH]; intros st H; simpl; [exact H|].
  apply IH, wf_run_op, H.
Qed.

(** ** How the receiver classifies the three event lines *)

Lemma prefix_empty (s : string) : prefix "" s = true.
Proof. destruct s; reflexivity. Qed.

Lemma nth_split_quote (n sfx : string) :
  contains "'" n = false ->
  nth_error (py_split quote_char 2 ("ERR User '" ++ n ++ "'" ++ sfx)) 1 = Some n.
Proof.
  intros Hq. apply contains_char_false in Hq.
  change ("ERR User '" ++ n ++ "'" ++ sfx) with ("ERR User " ++ String quote_char (n ++ String quote_char sfx)).
  unfold py_split. rewrite split_once_app by reflexivity.
  rewrite split_once_app by exact Hq. reflexivity.
Qed.

Lemma handle_err_user_line (st : session) (n sfx : string) :
  n <> "" -> contains "'" n = false -> (sfx = " not found" \/ sfx = " disconnected") ->
  fst (handle_line st ("ERR User '" ++ n ++ "'" ++ sfx)) = fst (on_unavailable st n).
Proof.
  intros Hn Hq Hs.
  assert (Hc : (contains "' not found" ("ERR User '" ++ n ++ "'" ++ sfx) ||
                contains "' disconnected" ("ERR User '" ++ n ++ "'" ++ sfx)) = true).
  { destruct Hs as [-> | ->].
    - apply orb_true_intro; left.
      apply contains_app_r, contains_app_r. exact (contains_here _ "").
    - apply orb_true_intro; right.
      apply contains_app_r, contains_app_r. exact (contains_here _ ""). }
  unfold handle_line.
  replace (startswith ("ERR User '" ++ n ++ "'" ++ sfx) "SYS END ") with false by reflexivity.
  rewrite startswith_app, Hc, nth_split_quote by exact Hq. simpl.
  destruct (n =? "") eqn:E; [apply String.eqb_eq in E; contradiction|].
  simpl. destruct (on_unavailable st n). reflexivity.
Qed.

Lemma handle_sys_end_line (st : session) (n : string) :
  strip n = n ->
  fst (handle_line st ("SYS END " ++ n)) = fst (on_sys_end st n).
Proof.
  intros Hs. unfold handle_line.
  rewrite startswith_app.
  change (String.length "SYS END ") with (String.length "SYS END ").
  rewrite drop_app, Hs.
  destruct (on_sys_end st n). reflexivity.
Qed.

(** The target-restore rule in the words of the design: if the event
    concerns the active target, pop the history into it (or clear it);
    otherwise leave the session alone. *)
Definition spec_target_restore (st : session) (n : string) : session :=
  if target_is (current_target st) n then
    match pop_last (target_stack st) with
    | Some (rest, back_to) => set_target (Some back_to) (set_stack rest st)
    | None => set_target None st
    end
  else st.

Lemma on_sys_end_restore (st : session) (n : string) :
  fst (on_sys_end st n) = spec_target_restore st n.
Proof.
  unfold on_sys_end, spec_target_restore.
  destruct (target_is _ _); [destruct (pop_last _) as [[? ?]|]|]; reflexivity.
Qed.

Lemma on_unavailable_restore (st : session) (n : string) :
  fst (on_unavailable st n) = spec_target_restore st n.
Proof.
  unfold on_unavailable, spec_target_restore.
  destruct (target_is _ _); [destruct (pop_last _) as [[? ?]|]|]; reflexivity.
Qed.

(** ** Claims *)

(** C1 (as stated, refuted).  A name containing a quote: with current
    target "a", the line [ERR User 'a'b' not found] concerns the user
    "a'b", which is not the current target, yet the receiver takes the text
    between the first two quotes, "a", and closes the chat with "a". *)
Lemma target_restore_rule_counterexample :
  ~ (forall (st : session) (n : string),
       n <> "" -> strip n = n -> target_is (current_target st) n = false ->
       fst (handle_line st ("ERR User '" ++ n ++ "' not found")) = st).
Proof.
  intros H.
  specialize (H (chatting (Some "a") []) "a'b" ltac:(discriminate) eq_refl eq_refl).
  vm_compute in H. discriminate H.
Qed.

(** C1 (amended).  For every line [SYS END n] where [n] is a non-empty
    name without surrounding whitespace (quotes allowed), and for every
    line [ERR User 'n' not found] or [ERR User 'n' disconnected] where [n]
    is moreover free of quote characters, the receiver's line step applies
    the target-restore rule: if [n] is the current target, the top of the
    history becomes the current target (or the current target is cleared
    when the history is empty); otherwise the session is unchanged.  In
    particular, with current target "A" and history ["B"; "C"], the chunk
    [ERR User 'A' not found\n] makes "C" the current target and leaves the
    history ["B"]. *)
Theorem target_restore_rule :
  (forall (st : session) (n : string),
     n <> "" -> strip n = n ->
     fst (handle_line st ("SYS END " ++ n)) = spec_target_restore st n) /\
  (forall (st : session) (n line : string),
     n <> "" -> strip n = n -> contains "'" n = false ->
     line = "ERR User '" ++ n ++ "' not found" \/
     line = "ERR User '" ++ n ++ "' disconnected" ->
     fst (handle_line st line) = spec_target_restore st n) /\
  fst (recv_loop (chatting (Some "A") ["B"; "C"]) "" [RecvData ("ERR User 'A' not found" ++ nl)])
  = chatting (Some "C") ["B"].
Proof.
  split; [|split; [|reflexivity]].
  - intros st n _ Hs.
    rewrite handle_sys_end_line by exact Hs. apply on_sys_end_restore.
  - intros st n line Hn Hs Hq [-> | ->].
    + transitivity (fst (on_unavailable st n)); [|apply on_unavailable_restore].
      apply (handle_err_user_line st n " not found"); auto.
    + transitivity (fst (on_unavailable st n)); [|apply on_unavailable_restore].
      apply (handle_err_user_line st n " disconnected"); auto.
Qed.

Lemma target_restore_rule_witness :
  fst (handle_line (chatting (Some "a'b") ["B"]) ("SYS END " ++ "a'b"))
  = spec_target_restore (chatting (Some "a'b") ["B"]) "a'b" /\
  spec_target_restore (chatting (Some "a'b") ["B"]) "a'b" = chatting (Some "B") [] /\
  fst (handle_line (chatting (Some "A") ["B"; "C"]) "ERR User 'A' not found")
  = spec_target_restore (chatting (Some "A") ["B"; "C"]) "A" /\
  spec_target_restore (chatting (Some "A") ["B"; "C"]) "A" = chatting (Some "C") ["B"].
Proof.
  split; [|split; [reflexivity|split; [|reflexivity]]].
  - apply (proj1 target_restore_rule (chatting (Some "a'b") ["B"]) "a'b").
    + discriminate.
    + reflexivity.
  - apply (proj1 (proj2 target_restore_rule) (chatting (Some "A") ["B"; "C"]) "A"
             "ERR User 'A' not found").
    + discriminate.
    + reflexivity.
    + reflexivity.
    + left. reflexivity.
Defined.

(** C2 (as stated, refuted).  Re-opening the conversation that is already
    active pushes nothing, so the END that follows ends that conversation:
    with current target "A" and empty history, opening "A" and ending
    leaves no current target, not "A". *)
Lemma open_end_roundtrip_counterexample :
  ~ (forall (st : session) (x : string), strip x <> "" ->
       current_target (snd (end_current_chat (open_chat st x) true)) = current_target st /\
       target_stack (snd (end_current_chat (open_chat st x) true)) = target_stack st).
Proof.
  intros H.
  destruct (H (chatting (Some "A") []) "A" ltac:(discriminate)) as [H1 _].
  vm_compute in H1. discriminate H1.
Qed.

(** C2 (amended).  In a well-formed session, opening a conversation with a
    target [x] that is non-empty after trimming and differs from the current
    target, then ending the current conversation with the END send
    succeeding, reports success, restores the target that was active before
    (or none) and leaves the history as it was. *)
Theorem open_end_roundtrip (st : session) (x : string) :
  wf st -> strip x <> "" -> current_target st <> Some (strip x) ->
  fst (end_current_chat (open_chat st x) true) = true /\
  current_target (snd (end_current_chat (open_chat st x) true)) = current_target st /\
  target_stack (snd (end_current_chat (open_chat st x) true)) = target_stack st.
Proof.
  intros (H1 & H2 & H3) Hx Hne.
  assert (Tx : truthy (Some (strip x)) = true).
  { simpl. apply String.eqb_neq in Hx. now rewrite Hx. }
  unfold open_chat. apply String.eqb_neq in Hx as Hx'. rewrite Hx'.
  destruct (current_target st) as [p|] eqn:Ec.
  - destruct (H2 p eq_refl) as [Hp _].
    assert (Tp : truthy (Some p) = true).
    { simpl. apply String.eqb_neq in Hp. now rewrite Hp. }
    assert (Dp : (p =? strip x) = false).
    { apply String.eqb_neq. congruence. }
    rewrite Tp, Dp. unfold end_current_chat. simpl.
    rewrite Hx'. simpl. rewrite pop_last_snoc. simpl. auto.
  - unfold end_current_chat. simpl.
    rewrite Hx'. simpl. rewrite (H1 eq_refl). simpl. auto.
Qed.

Lemma open_end_roundtrip_witness :
  wf (chatting (Some "A") ["B"]) /\
  current_target (snd (end_current_chat (open_chat (chatting (Some "A") ["B"]) "C") true))
  = Some "A".
Proof.
  assert (W : wf (chatting (Some "A") ["B"])).
  { apply wf_intro; simpl.
    - discriminate.
    - intros t E. inversion E. split; [discriminate | reflexivity].
    - constructor; [split; [discriminate | reflexivity] | constructor]. }
  split; [exact W|].
  apply (open_end_roundtrip (chatting (Some "A") ["B"]) "C" W).
  - discriminate.
  - discriminate.
Defined.

(** C3.  Target-switch rule of [open_chat] for a target [x] that is
    non-empty after trimming, with [t] its trimmed form: when an active
    target [p] differs from [t], [p] is pushed on the history and [t]
    installed; when [t] is already the current target, the session is
    unchanged.  Consequently an entry pushed by [open_chat] always differs
    from the target being switched to, which is the current target right
    after the push. *)
Theorem open_chat_switch_rule (st : session) (x : string) :
  strip x <> "" ->
  (forall p, current_target st = Some p -> p <> "" -> p <> strip x ->
     target_stack (open_chat st x) = (target_stack st ++ [p])%list /\
     current_target (open_chat st x) = Some (strip x)) /\
  (current_target st = Some (strip x) -> open_chat st x = st) /\
  (forall p, target_stack (open_chat st x) = (target_stack st ++ [p])%list ->
     current_target (open_chat st x) = Some (strip x) /\ p <> strip x).
Proof.
  intros Hx. apply String.eqb_neq in Hx.
  unfold open_chat. rewrite Hx.
  split; [|split].
  - intros p Ec Hp Hd. rewrite Ec. simpl.
    apply String.eqb_neq in Hp, Hd. rewrite Hp, Hd. simpl. auto.
  - intros Ec. rewrite Ec. simpl. rewrite String.eqb_refl, andb_false_r.
    destruct st; simpl in *. now subst.
  - intros p Hs. split.
    + destruct (current_target st) as [q|];
        [destruct (truthy (Some q) && negb (q =? strip x))|]; reflexivity.
    + destruct (current_target st) as [q|] eqn:Ec.
      * destruct (truthy (Some q) && negb (q =? strip x)) eqn:Eb; simpl in Hs.
        -- apply app_inj_tail in Hs as [_ <-].
           apply andb_true_iff in Eb as [_ Eb]. apply negb_true_iff, String.eqb_neq in Eb.
           exact Eb.
        -- apply (f_equal (@List.length string)) in Hs. rewrite length_app in Hs. simpl in Hs. lia.
      * simpl in Hs. apply (f_equal (@List.length string)) in Hs.
        rewrite length_app in Hs. simpl in Hs. lia.
Qed.

Lemma open_chat_switch_rule_witness :
  target_stack (open_chat (chatting (Some "A") []) " B ") = ["A"] /\
  open_chat (chatting (Some "B") []) " B " = chatting (Some "B") [].
Proof.
  destruct (open_chat_switch_rule (chatting (Some "A") []) " B " ltac:(discriminate))
    as [Hsw _].
  destruct (open_chat_switch_rule (chatting (Some "B") []) " B " ltac:(discriminate))
    as [_ [Hsame _]].
  split.
  - apply (Hsw "A"); [reflexivity | discriminate | discriminate].
  - apply Hsame. reflexivity.
Defined.

(** C4.  Classification of the handshake reply, for a name that is
    non-empty after trimming, a successful HELLO send and a received reply
    [raw] (trimmed to [r]): "Server full" in [r] closes the socket, clears
    the session and gives "EXIT"; otherwise a reply starting with "ERR"
    gives "RETRY"; otherwise one starting with "OK" records the trimmed
    name and gives "OK"; any other reply gives "RETRY".  Outside the
    server-full case the only effect is the HELLO line on the wire. *)
Theorem handshake_reply_classification (st : session) (nm raw : string) :
  strip nm <> "" ->
  let st1 := write_wire ("HELLO " ++ strip nm ++ nl) st in
  let r := strip raw in
  (contains "Server full" r = true ->
     handshake st nm true (Some raw) = ("EXIT", close st1) /\
     sock_closed (close st1) = true /\ connected (close st1) = false) /\
  (contains "Server full" r = false -> startswith r "ERR" = true ->
     handshake st nm true (Some raw) = ("RETRY", st1)) /\
  (contains "Server full" r = false -> startswith r "ERR" = false ->
     startswith r "OK" = true ->
     handshake st nm true (Some raw) = ("OK", set_name (strip nm) st1) /\
     name (set_name (strip nm) st1) = strip nm) /\
  (contains "Server full" r = false -> startswith r "ERR" = false ->
     startswith r "OK" = false ->
     handshake st nm true (Some raw) = ("RETRY", st1)).
Proof.
  intros Hn st1 r. apply String.eqb_neq in Hn.
  unfold handshake. rewrite Hn. simpl. fold r. fold st1.
  repeat split; intros; repeat match goal with H : _ = _ |- _ => rewrite H end; reflexivity.
Qed.

Lemma handshake_reply_classification_witness :
  handshake init_session "bob" true (Some "ERR Server full (3/3)")
  = ("EXIT", close (write_wire ("HELLO bob" ++ nl) init_session)) /\
  handshake init_session " bob " true (Some "OK Welcome bob")
  = ("OK", set_name "bob" (write_wire ("HELLO bob" ++ nl) init_session)).
Proof.
  split.
  - apply (handshake_reply_classification init_session "bob" "ERR Server full (3/3)");
      [discriminate | reflexivity].
  - apply (handshake_reply_classification init_session " bob " "OK Welcome bob");
      [discriminate | reflexivity | reflexivity | reflexivity].
Defined.

(** Lines on the wire end with a newline. *)
Definition ends_nl (s : string) : Prop := endswith s nl = true.

Lemma wire_on_sys_end (st : session) (s : string) : wire (fst (on_sys_end st s)) = wire st.
Proof.
  unfold on_sys_end. destruct (target_is _ _); [destruct (pop_last _) as [[? ?]|]|]; reflexivity.
Qed.

Lemma wire_on_unavailable (st : session) (s : string) :
  wire (fst (on_unavailable st s)) = wire st.
Proof.
  unfold on_unavailable. destruct (target_is _ _); [destruct (pop_last _) as [[? ?]|]|]; reflexivity.
Qed.

Lemma wire_handle_line (st : session) (l : string) : wire (fst (handle_line st l)) = wire st.
Proof.
  destruct (handle_line_cases st l) as [E|[[s E]|[u E]]]; rewrite E.
  - reflexivity.
  - apply wire_on_sys_end.
  - apply wire_on_unavailable.
Qed.

Lemma wire_safe_send (st : session) (text : string) (ok : bool) :
  Forall ends_nl (wire st) -> ends_nl text -> Forall ends_nl (wire (snd (safe_send st text ok))).
Proof.
  intros H Ht. destruct ok; simpl; [|exact H].
  apply Forall_app. split; [exact H | constructor; [exact Ht | constructor]].
Qed.

(** C5 (as stated, refuted).  The transport send [_safe_send] appends
    nothing: given "abc" it writes "abc". *)
Lemma send_appends_newline_counterexample :
  ~ (forall (st : session) (text : string),
       exists w, wire (snd (safe_send st text true)) = (wire st ++ [w])%list /\ ends_nl w).
Proof.
  intros H. destruct (H init_session "abc") as [w [Hw Hn]].
  simpl in Hw. inversion Hw; subst. discriminate Hn.
Qed.

(** C5 (amended).  [_safe_send] writes its text unchanged; the callers
    build newline-terminated lines ([HELLO], [END], [TO], and [send_one_off]
    appends a newline when absent), so no step of a session ever puts a
    line on the wire that does not end with a newline. *)
Theorem wire_lines_end_with_newline :
  (forall (st : session) (text : string),
     wire (snd (safe_send st text true)) = (wire st ++ [text])%list) /\
  (forall (st : session) (raw : string),
     wire (snd (send_one_off st raw true)) =
     (wire st ++ [if endswith raw nl then raw else String.append raw nl])%list) /\
  (forall (st : session) (o : op),
     Forall ends_nl (wire st) -> Forall ends_nl (wire (run_op st o))).
Proof.
  split; [reflexivity|]. split; [reflexivity|].
  intros st o H. destruct o; simpl.
  - destruct ok; exact H.
  - unfold handshake. destruct (strip nm =? ""); [exact H|].
    assert (Hs := wire_safe_send st ("HELLO " ++ strip nm ++ nl) send_ok H
                    (endswith_app _ _ _ (endswith_app_nl _))).
    destruct send_ok; simpl in *; [|exact Hs].
    destruct reply as [raw|]; [|exact Hs].
    destruct (contains _ _); [exact Hs|].
    destruct (startswith _ "ERR"); [exact Hs|].
    destruct (startswith _ "OK"); exact Hs.
  - unfold open_chat. destruct (strip target =? ""); [exact H|].
    destruct (current_target st) as [p|]; [destruct (_ && _)|]; exact H.
  - unfold end_current_chat. destruct (current_target st) as [t|]; [|exact H].
    destruct (negb _); [exact H|].
    assert (Hs := wire_safe_send st ("END " ++ t ++ nl) send_ok H
                    (endswith_app _ _ _ (endswith_app_nl _))).
    destruct send_ok; simpl in *; [|exact Hs].
    destruct (pop_last _) as [[? ?]|]; exact Hs.
  - unfold send_to_current. destruct (current_target st) as [t|]; [|exact H].
    destruct (negb _); [exact H|].
    apply wire_safe_send; [exact H|].
    apply endswith_app, endswith_app, endswith_app, endswith_app_nl.
  - unfold send_one_off. apply wire_safe_send; [exact H|].
    destruct (endswith raw nl) eqn:E; [exact E | apply endswith_app_nl].
  - exact H.
  - rewrite wire_handle_line. exact H.
  - exact H.
  - exact H.
Qed.

Lemma prefix_inv (p l : string) : prefix p l = true -> exists r, l = p ++ r.
Proof.
  revert l. induction p as [|c p IH]; intros l H; [exists l; reflexivity|].
  destruct l as [|d l]; simpl in H; [discriminate|].
  destruct (ascii_dec c d) as [<-|]; [|discriminate].
  destruct (IH l H) as [r ->]. exists r. reflexivity.
Qed.

(** C6.  A [FROM] line leaves the session exactly as it was and is printed
    verbatim (after an optional notice); in particular the chunks
    [FROM A hi\n] and [FROM B yo\n] report both messages and change
    nothing, whatever the session. *)
Theorem from_line_frame :
  (forall (st : session) (l : string), startswith l "FROM " = true ->
     exists pre, handle_line st l = (st, pre ++ [l])%list) /\
  (forall st : session,
     recv_loop st "" [RecvData ("FROM A hi" ++ nl); RecvData ("FROM B yo" ++ nl)] =
     (st, ["[System] New message from A. Use: TO A to reply."; "FROM A hi";
           "[System] New message from B. Use: TO B to reply."; "FROM B yo"])).
Proof.
  split; [|intros st; reflexivity].
  intros st l H. apply prefix_inv in H as [r ->].
  unfold handle_line.
  replace (startswith ("FROM " ++ r) "SYS END ") with false by reflexivity.
  replace (startswith ("FROM " ++ r) "ERR User '") with false by reflexivity.
  simpl. eexists. reflexivity.
Qed.

Lemma from_line_frame_witness :
  exists pre, handle_line (chatting (Some "C") ["D"]) "FROM A hi"
              = (chatting (Some "C") ["D"], pre ++ ["FROM A hi"])%list.
Proof. apply (proj1 from_line_frame). reflexivity. Defined.

Lemma connected_on_sys_end (st : session) (s : string) :
  connected (fst (on_sys_end st s)) = connected st.
Proof.
  unfold on_sys_end. destruct (target_is _ _); [destruct (pop_last _) as [[? ?]|]|]; reflexivity.
Qed.

Lemma connected_on_unavailable (st : session) (s : string) :
  connected (fst (on_unavailable st s)) = connected st.
Proof.
  unfold on_unavailable. destruct (target_is _ _); [destruct (pop_last _) as [[? ?]|]|]; reflexivity.
Qed.

Lemma connected_handle_line (st : session) (l : string) :
  connected (fst (handle_line st l)) = connected st.
Proof.
  destruct (handle_line_cases st l) as [E|[[s E]|[u E]]]; rewrite E.
  - reflexivity.
  - apply connected_on_sys_end.
  - apply connected_on_unavailable.
Qed.

Lemma open_chat_connected (st : session) (x : string) :
  connected (open_chat st x) = connected st.
Proof.
  unfold open_chat. destruct (strip x =? ""); [reflexivity|].
  destruct (current_target st) as [p|]; [destruct (_ && _)|]; reflexivity.
Qed.

Lemma safe_send_drop (st : session) (text : string) (ok : bool) :
  connected (snd (safe_send st text ok)) = false ->
  connected st = false \/ snd (safe_send st text ok) = set_disconnected st.
Proof. destruct ok; simpl; auto. Qed.

(** The disconnected state carries no chat state. *)
Lemma set_disconnected_clear (st : session) :
  current_target (set_disconnected st) = None /\ target_stack (set_disconnected st) = [].
Proof. split; reflexivity. Qed.

(** C7 (as stated, refuted).  [open_chat] does not look at the connection
    flag: after the receiver sees the end of the stream, a [TO B] typed
    at the prompt installs "B" in a session that is no longer alive. *)
Lemma dead_session_clear_counterexample :
  let st := run_ops init_session
              [OpConnect true; OpHandshake "me" true (Some "OK Welcome me");
               OpRecvEOF; OpOpenChat "B"] in
  connected st = false /\ current_target st = Some "B".
Proof. split; reflexivity. Qed.

(** C7 (amended).  Every step that turns the alive flag from true to false
    (receive error, end of stream, failed send, failed handshake receive,
    server full, close) clears the current target and empties the history
    in the same step; [open_chat] never reads or changes the flag, so it
    can install a target in a session that is not alive. *)
Theorem dead_session_clear :
  (forall (st : session) (o : op),
     connected st = true -> connected (run_op st o) = false ->
     current_target (run_op st o) = None /\ target_stack (run_op st o) = []) /\
  (forall (st : session) (x : string), strip x <> "" ->
     connected (open_chat st x) = connected st /\
     current_target (open_chat st x) = Some (strip x)).
Proof.
  split.
  - intros st o Hc Hd. destruct o; simpl in *.
    + destruct ok; simpl in Hd; congruence.
    + revert Hd. unfold handshake. destruct (strip nm =? ""); [simpl; congruence|].
      destruct send_ok; simpl; [|intros _; split; reflexivity].
      destruct reply as [raw|]; [|intros _; split; reflexivity].
      destruct (contains _ _); [intros _; split; reflexivity|].
      destruct (startswith _ "ERR"); [simpl; congruence|].
      destruct (startswith _ "OK"); simpl; congruence.
    + rewrite open_chat_connected in Hd. congruence.
    + revert Hd. unfold end_current_chat. destruct (current_target st) as [t|]; [|simpl; congruence].
      destruct (negb _); [simpl; congruence|].
      destruct send_ok; simpl; [|intros _; split; reflexivity].
      destruct (pop_last _) as [[? ?]|]; simpl; congruence.
    + revert Hd. unfold send_to_current. destruct (current_target st) as [t|]; [|simpl; congruence].
      destruct (negb _); [simpl; congruence|].
      destruct send_ok; simpl; [congruence | intros _; split; reflexivity].
    + revert Hd. unfold send_one_off.
      destruct send_ok; simpl; [congruence | intros _; split; reflexivity].
    + split; reflexivity.
    + rewrite connected_handle_line in Hd. congruence.
    + split; reflexivity.
    + split; reflexivity.
  - intros st x Hx. split; [apply open_chat_connected|].
    unfold open_chat. apply String.eqb_neq in Hx. rewrite Hx.
    destruct (current_target st) as [p|]; [destruct (_ && _)|]; reflexivity.
Qed.

Lemma dead_session_clear_witness :
  current_target (run_op (chatting (Some "A") ["B"]) OpRecvEOF) = None /\
  current_target (open_chat (set_disconnected (chatting (Some "A") [])) "B") = Some "B".
Proof.
  split.
  - apply (proj1 dead_session_clear (chatting (Some "A") ["B"]) OpRecvEOF);
      reflexivity.
  - apply (proj2 dead_session_clear (set_disconnected (chatting (Some "A") [])) "B").
    discriminate.
Defined.

(** C8.  A name that is empty after trimming gives "RETRY" and leaves the
    session untouched: nothing reaches the wire. *)
Theorem handshake_empty_name_local (st : session) (nm : string) (ok : bool)
    (reply : option string) :
  strip nm = "" ->
  handshake st nm ok reply = ("RETRY", st) /\
  wire (snd (handshake st nm ok reply)) = wire st.
Proof.
  intros H. unfold handshake. rewrite H. simpl. auto.
Qed.

Lemma handshake_empty_name_local_witness :
  handshake (chatting None []) " 	 " true (Some "OK Welcome") = ("RETRY", chatting None []).
Proof. apply (handshake_empty_name_local (chatting None []) " 	 " true); reflexivity. Defined.

(** A quote-free tail after [ERR User '] can only contain a suffix phrase
    through the opening quote, so it starts with a space. *)
Lemma err_tail_space (rest x : string) :
  contains "'" rest = false ->
  contains (String quote_char (String space_char x)) ("ERR User '" ++ rest) = true ->
  exists r, rest = String space_char r.
Proof.
  intros Hq H.
  change ("ERR User '" ++ rest) with ("ERR User " ++ String quote_char rest) in H.
  apply contains_skip in H; [|reflexivity].
  cbn [contains] in H. apply orb_true_iff in H as [H|H].
  - simpl in H. apply prefix_inv in H as [r ->]. exists (x ++ r). reflexivity.
  - apply contains_char_of in H. change (String quote_char "") with "'" in H. congruence.
Qed.

(** C9.  A line that is neither [FROM], nor [SYS END], nor an
    [ERR User '] line containing [' not found] or [' disconnected] is printed
    verbatim and changes nothing.  An [ERR User '] line with no closing
    quote is also printed verbatim and changes nothing in a well-formed
    session, even when it contains a suffix phrase.  The line step is a
    total function: no input makes it fail. *)
Theorem unavailable_match_strict :
  (forall (st : session) (l : string),
     startswith l "FROM " = false -> startswith l "SYS END " = false ->
     (startswith l "ERR User '" && (contains "' not found" l || contains "' disconnected" l))
     = false ->
     handle_line st l = (st, [l])) /\
  (forall (st : session) (rest : string),
     wf st -> contains "'" rest = false ->
     handle_line st ("ERR User '" ++ rest) = (st, ["ERR User '" ++ rest])).
Proof.
  split.
  - intros st l H1 H2 H3. unfold handle_line. rewrite H1, H2, H3. reflexivity.
  - intros st rest (W1 & W2 & W3) Hq.
    assert (Hsplit : nth_error (py_split quote_char 2 ("ERR User '" ++ rest)) 1 = Some rest).
    { change ("ERR User '" ++ rest) with ("ERR User " ++ String quote_char rest).
      unfold py_split. rewrite split_once_app by reflexivity.
      rewrite (contains_char_false quote_char rest Hq). reflexivity. }
    unfold handle_line.
    replace (startswith ("ERR User '" ++ rest) "FROM ") with false by reflexivity.
    replace (startswith ("ERR User '" ++ rest) "SYS END ") with false by reflexivity.
    rewrite startswith_app, Hsplit, andb_true_l.
    destruct (contains "' not found" ("ERR User '" ++ rest) ||
              contains "' disconnected" ("ERR User '" ++ rest)) eqn:Hc;
      [|reflexivity].
    destruct (truthy (Some rest)) eqn:Ht; [|reflexivity].
    unfold on_unavailable.
    destruct (target_is (current_target st) rest) eqn:Et; [|reflexivity].
    exfalso.
    destruct (current_target st) as [t|] eqn:Ec; [|discriminate].
    simpl in Et. apply String.eqb_eq in Et. subst t.
    destruct (W2 rest eq_refl) as [_ Hl].
    assert (Hs : exists r, rest = String space_char r).
    { apply orb_true_iff in Hc as [Hc|Hc].
      - exact (err_tail_space rest "not found" Hq Hc).
      - exact (err_tail_space rest "disconnected" Hq Hc). }
    destruct Hs as [r Er]. rewrite Er in Hl. exact (lstrip_fixed_no_space r Hl).
Qed.

Lemma unavailable_match_strict_witness :
  handle_line (chatting (Some "A") []) "ERR User A not found"
  = (chatting (Some "A") [], ["ERR User A not found"]) /\
  handle_line (chatting (Some "A") []) ("ERR User ' not found")
  = (chatting (Some "A") [], ["ERR User ' not found"]).
Proof.
  assert (W : wf (chatting (Some "A") [])).
  { apply wf_intro; simpl; [discriminate | | constructor].
    intros t E. inversion E. split; [discriminate | reflexivity]. }
  split.
  - apply (proj1 unavailable_match_strict); reflexivity.
  - apply (proj2 unavailable_match_strict (chatting (Some "A") []) " not found" W).
    reflexivity.
Defined.

(** C10.  With no current target, [send_to_current] writes nothing, keeps
    the session and returns [true], the same value as a completed send;
    it returns [false] only when a send was attempted (an active target)
    and failed, in which case the session is marked disconnected. *)
Theorem send_to_current_no_target (st : session) (message : string) (ok : bool) :
  (current_target st = None -> send_to_current st message ok = (true, st)) /\
  (forall t, current_target st = Some t -> t <> "" -> ok = true ->
     send_to_current st message ok = (true, write_wire ("TO " ++ t ++ " " ++ message ++ nl) st)) /\
  (fst (send_to_current st message ok) = false ->
     exists t, current_target st = Some t /\ t <> "" /\ ok = false /\
               snd (send_to_current st message ok) = set_disconnected st).
Proof.
  unfold send_to_current. split; [|split].
  - intros ->. reflexivity.
  - intros t -> Ht ->. apply String.eqb_neq in Ht. simpl. rewrite Ht. reflexivity.
  - destruct (current_target st) as [t|]; [|discriminate].
    destruct (t =? "") eqn:E; simpl; rewrite ?E; simpl; [discriminate|].
    destruct ok; simpl; [discriminate|].
    intros _. exists t. repeat split; auto. now apply String.eqb_neq.
Qed.

Lemma send_to_current_no_target_witness :
  send_to_current (chatting None []) "hi" true = (true, chatting None []).
Proof. apply (proj1 (send_to_current_no_target (chatting None []) "hi" true)). reflexivity. Defined.

(** ** Further properties of the code *)

Lemma split_once_app_none (c : ascii) (s1 s2 : string) :
  split_once c s1 = None -> split_once c s2 = None -> split_once c (s1 ++ s2) = None.
Proof.
  induction s1 as [|d s1 IH]; simpl; [auto|].
  destruct (Ascii.eqb d c); [discriminate|].
  destruct (split_once c s1) as [[? ?]|]; [discriminate|].
  intros _ H2. now rewrite IH.
Qed.

Lemma drain_no_newline (fuel : nat) (st : session) (b : string) :
  split_once nl_char b = None -> drain_lines fuel st b = (st, [], b).
Proof. intros H. destruct fuel; simpl; [reflexivity|]. now rewrite H. Qed.

(** A session that differs from [st] only in its chat state. *)
Definition chat_only (st st' : session) : Prop :=
  exists t l, st' = set_target t (set_stack l st).

Lemma chat_only_refl (st : session) : chat_only st st.
Proof. exists (current_target st), (target_stack st). destruct st; reflexivity. Qed.

Lemma chat_only_trans (a b c : session) : chat_only a b -> chat_only b c -> chat_only a c.
Proof.
  intros [t1 [l1 ->]] [t2 [l2 ->]]. exists t2, l2. reflexivity.
Qed.

Lemma chat_only_handle_line (st : session) (l : string) : chat_only st (fst (handle_line st l)).
Proof.
  destruct (handle_line_cases st l) as [E|[[s E]|[u E]]]; rewrite E.
  - apply chat_only_refl.
  - unfold on_sys_end. destruct (target_is _ _); [destruct (pop_last _) as [[r b]|]|].
    + exists (Some b), r. reflexivity.
    + exists None, (target_stack st). destruct st; reflexivity.
    + apply chat_only_refl.
  - unfold on_unavailable. destruct (target_is _ _); [destruct (pop_last _) as [[r b]|]|].
    + exists (Some b), r. reflexivity.
    + exists None, (target_stack st). destruct st; reflexivity.
    + apply chat_only_refl.
Qed.

Lemma drain_lines_inv (P : session -> Prop) :
  (forall st l, P st -> P (fst (handle_line st l))) ->
  forall fuel st b, P st -> P (fst (fst (drain_lines fuel st b))).
Proof.
  intros HP fuel. induction fuel as [|f IH]; intros st b H; simpl; [exact H|].
  destruct (split_once nl_char b) as [[line0 rest]|]; simpl; [|exact H].
  destruct (strip line0 =? ""); [apply IH, H|].
  destruct (handle_line st (strip line0)) as [st1 o1] eqn:E.
  destruct (drain_lines f st1 rest) as [[st2 o2] b2] eqn:E2. simpl.
  change st2 with (fst (fst (st2, o2, b2))). rewrite <- E2. apply IH.
  change st1 with (fst (st1, o1)). rewrite <- E. apply HP, H.
Qed.

Lemma chat_only_drain (fuel : nat) (st : session) (b : string) :
  chat_only st (fst (fst (drain_lines fuel st b))).
Proof.
  apply (drain_lines_inv (fun s => chat_only st s)); [|apply chat_only_refl].
  intros s l H. eapply chat_only_trans; [exact H | apply chat_only_handle_line].
Qed.

(** The outcomes of [recv] that end the receiver thread. *)
Definition is_stop (r : recv_result) : bool :=
  match r with
  | RecvOSError => true
  | RecvData d => d =? ""
  end.

(** X2.  A partial line split over two reads is handled exactly as if the
    two pieces had arrived in one read. *)
Theorem recv_loop_chunk_split (st : session) (buf a b : string) (rest : list recv_result) :
  split_once nl_char buf = None -> split_once nl_char a = None -> a <> "" -> b <> "" ->
  recv_loop st buf (RecvData a :: RecvData b :: rest) =
  recv_loop st buf (RecvData (a ++ b) :: rest).
Proof.
  intros Hbuf Ha Hna Hnb.
  assert (Hab : (a ++ b =? "") = false).
  { apply String.eqb_neq. destruct a; [contradiction | discriminate]. }
  apply String.eqb_neq in Hna, Hnb.
  cbn [recv_loop]. rewrite Hna, Hab.
  rewrite (drain_no_newline _ st (buf ++ a)) by (apply split_once_app_none; assumption).
  cbn [recv_loop]. rewrite Hnb, string_app_assoc. cbv zeta.
  destruct (drain_lines _ st (buf ++ a ++ b)) as [[st1 o1] b1].
  destruct (recv_loop st1 b1 rest). reflexivity.
Qed.

Lemma recv_loop_chunk_split_witness :
  recv_loop (chatting (Some "A") []) "" [RecvData "SYS E"; RecvData ("ND A" ++ nl)] =
  recv_loop (chatting (Some "A") []) "" [RecvData ("SYS E" ++ "ND A" ++ nl)].
Proof.
  apply recv_loop_chunk_split; [reflexivity | reflexivity | discriminate | discriminate].
Defined.

(** X4.  The receiver leaves the session alive exactly when no end-of-stream
    or socket error was received, and it changes nothing but the current
    target, the history and that flag: it never writes to the socket, never
    touches the name or the socket-closed flag, and keeps the session
    invariant. *)
Theorem recv_loop_effects (st : session) (buf : string) (rs : list recv_result) :
  connected (fst (recv_loop st buf rs)) = connected st && negb (existsb is_stop rs) /\
  wire (fst (recv_loop st buf rs)) = wire st /\
  name (fst (recv_loop st buf rs)) = name st /\
  sock_closed (fst (recv_loop st buf rs)) = sock_closed st /\
  (wf st -> wf (fst (recv_loop st buf rs))).
Proof.
  revert st buf. induction rs as [|r rs IH]; intros st buf.
  - simpl. rewrite andb_true_r. auto.
  - destruct r as [d|]; cbn [recv_loop existsb is_stop].
    + destruct (d =? "") eqn:Ed; cbn [orb negb].
      * simpl. rewrite andb_false_r.
        refine (conj eq_refl (conj eq_refl (conj eq_refl (conj eq_refl _)))).
        intros _. apply wf_set_disconnected.
      * assert (Hc := chat_only_drain (S (String.length (buf ++ d))) st (buf ++ d)).
        assert (Hw := drain_lines_inv wf (fun s l => wf_handle_line s l)
                        (S (String.length (buf ++ d))) st (buf ++ d)).
        destruct (drain_lines (S (String.length (buf ++ d))) st (buf ++ d)) as [[st1 o1] b1].
        simpl in Hc, Hw.
        destruct (IH st1 b1) as (H1 & H2 & H3 & H4 & H5).
        destruct Hc as [t [l ->]].
        destruct (recv_loop _ b1 rs) as [st2 o2]. simpl in *.
        refine (conj H1 (conj H2 (conj H3 (conj H4 _)))). intros Hwf. apply H5, Hw, Hwf.
    + rewrite andb_false_r.
      refine (conj eq_refl (conj eq_refl (conj eq_refl (conj eq_refl _)))).
      intros _. apply wf_set_disconnected.
Qed.

Lemma rstrip_idem (s : string) : rstrip (rstrip s) = rstrip s.
Proof.
  induction s as [|c s IH]; simpl; [reflexivity|].
  destruct ((rstrip s =? "") && is_ws c) eqn:E; [reflexivity|].
  simpl. rewrite IH, E. reflexivity.
Qed.

Lemma strip_idem (s : string) : strip (strip s) = strip s.
Proof.
  unfold strip at 1. rewrite lstrip_strip. unfold strip. apply rstrip_idem.
Qed.

(** X6.  [end_current_chat]: with no active target it is a successful
    no-op; when the END send fails it returns [false] and leaves the
    session disconnected with nothing written; when the send succeeds it
    writes [END t] and then applies to [t] the same restore rule as the
    receiver's [SYS END] handling. *)
Theorem end_current_chat_cases (st : session) (ok : bool) :
  (current_target st = None -> end_current_chat st ok = (true, st)) /\
  (forall t, current_target st = Some t -> t <> "" ->
     end_current_chat st false = (false, set_disconnected st)) /\
  (forall t, current_target st = Some t -> t <> "" ->
     end_current_chat st true =
     (true, spec_target_restore (write_wire ("END " ++ t ++ nl) st) t)).
Proof.
  unfold end_current_chat. split; [|split].
  - intros ->. reflexivity.
  - intros t -> Ht. apply String.eqb_neq in Ht. simpl. rewrite Ht. reflexivity.
  - intros t Ec Ht. rewrite Ec. apply String.eqb_neq in Ht as Ht'. simpl. rewrite Ht'.
    simpl. unfold spec_target_restore. simpl. rewrite Ec. simpl. rewrite String.eqb_refl.
    destruct (pop_last (target_stack st)) as [[? ?]|]; reflexivity.
Qed.

Lemma end_current_chat_cases_witness :
  end_current_chat (chatting (Some "A") ["B"]) false
  = (false, set_disconnected (chatting (Some "A") ["B"])) /\
  end_current_chat (chatting (Some "A") ["B"]) true
  = (true, spec_target_restore (write_wire ("END A" ++ nl) (chatting (Some "A") ["B"])) "A").
Proof.
  destruct (end_current_chat_cases (chatting (Some "A") ["B"]) true) as [_ [H2 H3]].
  split.
  - apply (H2 "A"); [reflexivity | discriminate].
  - apply (H3 "A"); [reflexivity | discriminate].
Defined.

(** Opening a different target and ending it brings the session's chat
    state back (shared by the composition properties below). *)
Lemma open_end_restore (st : session) (x : string) :
  wf st -> strip x <> "" -> current_target st <> Some (strip x) ->
  fst (end_current_chat (open_chat st x) true) = true /\
  current_target (snd (end_current_chat (open_chat st x) true)) = current_target st /\
  target_stack (snd (end_current_chat (open_chat st x) true)) = target_stack st.
Proof.
  intros (H1 & H2 & H3) Hx Hne.
  unfold open_chat. apply String.eqb_neq in Hx as Hx'. rewrite Hx'.
  destruct (current_target st) as [p|] eqn:Ec.
  - destruct (H2 p eq_refl) as [Hp _].
    assert (Tp : truthy (Some p) = true).
    { simpl. apply String.eqb_neq in Hp. now rewrite Hp. }
    assert (Dp : (p =? strip x) = false).
    { apply String.eqb_neq. congruence. }
    rewrite Tp, Dp. unfold end_current_chat. simpl.
    rewrite Hx'. simpl. rewrite pop_last_snoc. simpl. auto.
  - unfold end_current_chat. simpl.
    rewrite Hx'. simpl. rewrite (H1 eq_refl). simpl. auto.
Qed.

Lemma end_chat_congr (a b : session) (ok : bool) :
  current_target a = current_target b -> target_stack a = target_stack b ->
  current_target (snd (end_current_chat a ok)) = current_target (snd (end_current_chat b ok)) /\
  target_stack (snd (end_current_chat a ok)) = target_stack (snd (end_current_chat b ok)).
Proof.
  intros Hc Hs. destruct a, b; simpl in Hc, Hs; subst.
  unfold end_current_chat; simpl.
  destruct current_target1 as [t|]; [|simpl; auto].
  destruct (t =? ""); [simpl; auto|].
  destruct ok; simpl; [|auto].
  destruct (pop_last target_stack1) as [[? ?]|]; simpl; auto.
Qed.

(** X7.  Opening a conversation with a target different from the active
    one and then receiving [SYS END] for it from the peer gives back the
    previous target and history, as a local END does. *)
Theorem open_then_peer_end (st : session) (x : string) :
  wf st -> strip x <> "" -> current_target st <> Some (strip x) ->
  current_target (fst (handle_line (open_chat st x) ("SYS END " ++ strip x))) = current_target st /\
  target_stack (fst (handle_line (open_chat st x) ("SYS END " ++ strip x))) = target_stack st.
Proof.
  intros (H1 & H2 & H3) Hx Hne.
  rewrite handle_sys_end_line by apply strip_idem.
  rewrite on_sys_end_restore. unfold spec_target_restore.
  unfold open_chat. apply String.eqb_neq in Hx as Hx'. rewrite Hx'.
  destruct (current_target st) as [p|] eqn:Ec.
  - destruct (H2 p eq_refl) as [Hp _].
    assert (Tp : truthy (Some p) = true).
    { simpl. apply String.eqb_neq in Hp. now rewrite Hp. }
    assert (Dp : (p =? strip x) = false).
    { apply String.eqb_neq. congruence. }
    rewrite Tp, Dp. simpl. rewrite String.eqb_refl, pop_last_snoc. simpl. auto.
  - simpl. rewrite String.eqb_refl, (H1 eq_refl). simpl. auto.
Qed.

Lemma open_then_peer_end_witness :
  current_target (fst (handle_line (open_chat (chatting (Some "A") []) "B") ("SYS END " ++ "B")))
  = Some "A".
Proof.
  assert (W : wf (chatting (Some "A") [])).
  { apply wf_intro; simpl; [discriminate | | constructor].
    intros t E. inversion E. split; [discriminate | reflexivity]. }
  apply (open_then_peer_end (chatting (Some "A") []) "B" W); discriminate.
Defined.

(** X8.  The history is a stack: opening [x] and then [y] (each different
    from the target before it) and ending twice first returns to [x], then
    to the target and history the session had at the start. *)
Theorem open_open_end_end_lifo (st : session) (x y : string) :
  wf st -> strip x <> "" -> strip y <> "" ->
  current_target st <> Some (strip x) -> strip y <> strip x ->
  let s2 := open_chat (open_chat st x) y in
  let s3 := snd (end_current_chat s2 true) in
  let s4 := snd (end_current_chat s3 true) in
  current_target s3 = Some (strip x) /\
  current_target s4 = current_target st /\ target_stack s4 = target_stack st.
Proof.
  intros W Hx Hy Hnx Hyx s2 s3 s4.
  assert (W1 : wf (open_chat st x)) by (apply wf_open_chat, W).
  assert (C1 : current_target (open_chat st x) = Some (strip x)).
  { unfold open_chat. apply String.eqb_neq in Hx. rewrite Hx.
    destruct (current_target st) as [p|]; [destruct (_ && _)|]; reflexivity. }
  destruct (open_end_restore (open_chat st x) y W1 Hy) as (_ & E1 & E2);
    [rewrite C1; congruence|].
  destruct (open_end_restore st x W Hx Hnx) as (_ & F1 & F2).
  destruct (end_chat_congr s3 (open_chat st x) true E1 E2) as [G1 G2].
  split; [exact (eq_trans E1 C1)|].
  split; [exact (eq_trans G1 F1) | exact (eq_trans G2 F2)].
Qed.

Lemma open_open_end_end_lifo_witness :
  current_target (snd (end_current_chat (snd (end_current_chat
    (open_chat (open_chat (chatting None []) "A") "B") true)) true)) = None.
Proof.
  assert (W : wf (chatting None [])) by (apply wf_intro; simpl; auto; discriminate).
  apply (open_open_end_end_lifo (chatting None []) "A" "B" W); discriminate.
Defined.

(** Every step keeps the lines on the wire newline-terminated. *)
Lemma wire_nl_run_op (st : session) (o : op) :
  Forall ends_nl (wire st) -> Forall ends_nl (wire (run_op st o)).
Proof.
  intros H. destruct o; simpl.
  - destruct ok; exact H.
  - unfold handshake. destruct (strip nm =? ""); [exact H|].
    assert (Hs := wire_safe_send st ("HELLO " ++ strip nm ++ nl) send_ok H
                    (endswith_app _ _ _ (endswith_app_nl _))).
    destruct send_ok; simpl in *; [|exact Hs].
    destruct reply as [raw|]; [|exact Hs].
    destruct (contains _ _); [exact Hs|].
    destruct (startswith _ "ERR"); [exact Hs|].
    destruct (startswith _ "OK"); exact Hs.
  - unfold open_chat. destruct (strip target =? ""); [exact H|].
    destruct (current_target st) as [p|]; [destruct (_ && _)|]; exact H.
  - unfold end_current_chat. destruct (current_target st) as [t|]; [|exact H].
    destruct (negb _); [exact H|].
    assert (Hs := wire_safe_send st ("END " ++ t ++ nl) send_ok H
                    (endswith_app _ _ _ (endswith_app_nl _))).
    destruct send_ok; simpl in *; [|exact Hs].
    destruct (pop_last _) as [[? ?]|]; exact Hs.
  - unfold send_to_current. destruct (current_target st) as [t|]; [|exact H].
    destruct (negb _); [exact H|].
    apply wire_safe_send; [exact H|].
    apply endswith_app, endswith_app, endswith_app, endswith_app_nl.
  - unfold send_one_off. apply wire_safe_send; [exact H|].
    destruct (endswith raw nl) eqn:E; [exact E | apply endswith_app_nl].
  - exact H.
  - rewrite wire_handle_line. exact H.
  - exact H.
  - exact H.
Qed.

Lemma wire_nl_run_ops (st : session) (os : list op) :
  Forall ends_nl (wire st) -> Forall ends_nl (wire (run_ops st os)).
Proof.
  revert st. induction os as [|o os IH]; intros st H; simpl; [exact H|].
  apply IH, wire_nl_run_op, H.
Qed.

(** The command-line loop is a sequence of the session's steps. *)
Lemma run_cli_ops (inputs : list (string * bool)) (st : session) :
  exists os, run_cli st inputs = run_ops st os.
Proof.
  revert st. induction inputs as [|[raw ok] more IH]; intros st.
  - destruct (connected st) eqn:C; simpl; rewrite C.
    + exists []. reflexivity.
    + exists [OpClose]. reflexivity.
  - cbn [run_cli]. destruct (connected st) eqn:C; simpl negb; cbn iota.
    2: { exists [OpClose]. reflexivity. }
    destruct (strip raw =? "").
    { apply IH. }
    destruct (_ || _).
    { exists [OpClose]. reflexivity. }
    destruct (str_upper (strip raw) =? "END").
    { destruct (end_current_chat st ok) as [r st1] eqn:E.
      assert (E1 : run_op st (OpEndChat ok) = st1) by (simpl; rewrite E; reflexivity).
      destruct r; simpl negb; cbn iota.
      - destruct (IH st1) as [os Hos]. exists (OpEndChat ok :: os). cbn [run_ops]. now rewrite E1.
      - exists [OpEndChat ok; OpClose]. cbn [run_ops]. now rewrite E1. }
    destruct (startswith (str_upper (strip raw)) "TO ").
    + destruct (Nat.eqb _ 2).
      * destruct (_ =? "").
        { apply IH. }
        destruct (IH (open_chat st (match nth_error (split_ws 2 (strip raw)) 1 with
                                    | Some p => strip p | None => "" end))) as [os Hos].
        eexists (OpOpenChat _ :: os). simpl. exact Hos.
      * destruct (send_one_off st (strip raw) ok) as [r st1] eqn:E.
        assert (E1 : run_op st (OpSendOneOff (strip raw) ok) = st1)
          by (simpl; rewrite E; reflexivity).
        destruct r; simpl negb; cbn iota.
        -- destruct (IH st1) as [os Hos]. exists (OpSendOneOff (strip raw) ok :: os).
           cbn [run_ops]. now rewrite E1.
        -- exists [OpSendOneOff (strip raw) ok; OpClose]. cbn [run_ops]. now rewrite E1.
    + destruct (send_to_current st (strip raw) ok) as [r st1] eqn:E.
      assert (E1 : run_op st (OpSendCurrent (strip raw) ok) = st1)
        by (simpl; rewrite E; reflexivity).
      destruct r; simpl negb; cbn iota.
      -- destruct (IH st1) as [os Hos]. exists (OpSendCurrent (strip raw) ok :: os).
         cbn [run_ops]. now rewrite E1.
      -- exists [OpSendCurrent (strip raw) ok; OpClose]. cbn [run_ops]. now rewrite E1.
Qed.

(** X9.  Whatever the user types and whatever the sends' outcomes, the
    command-line loop keeps the session's invariant (no history without an
    active chat, only valid targets) and only writes newline-terminated
    lines. *)
Theorem run_cli_invariants (st : session) (inputs : list (string * bool)) :
  wf st -> Forall ends_nl (wire st) ->
  wf (run_cli st inputs) /\ Forall ends_nl (wire (run_cli st inputs)).
Proof.
  intros W N. destruct (run_cli_ops inputs st) as [os ->].
  split; [apply wf_run_ops, W | apply wire_nl_run_ops, N].
Qed.

Lemma run_cli_invariants_witness :
  wf (run_cli (chatting None []) [("TO A", true); ("hi", true); ("END", true)]) /\
  Forall ends_nl (wire (run_cli (chatting None []) [("TO A", true); ("hi", true); ("END", true)])).
Proof.
  apply run_cli_invariants.
  - apply wf_intro; simpl; auto; discriminate.
  - constructor.
Defined.


(** X11.  A line whose send fails never lets the loop go on after writing:
    either the loop closes the session, or the line wrote nothing (blank,
    [TO <target>], [END] or a message with no chat open) and the loop goes
    on from a connected session with the same wire. *)
Theorem run_cli_failed_send (st : session) (raw : string) (more : list (string * bool)) :
  connected st = true ->
  (exists st1, run_cli st ((raw, false) :: more) = close st1) \/
  (exists st1, connected st1 = true /\ wire st1 = wire st /\
               run_cli st ((raw, false) :: more) = run_cli st1 more).
Proof.
  intros C. cbn [run_cli]. rewrite C. simpl negb. cbn iota.
  destruct (strip raw =? "").
  { right. exists st. auto. }
  destruct (_ || _).
  { left. exists st. reflexivity. }
  destruct (str_upper (strip raw) =? "END").
  { unfold end_current_chat. destruct (current_target st) as [t|].
    - destruct (negb (truthy (Some t))).
      + right. exists st. auto.
      + left. exists (set_disconnected st). reflexivity.
    - right. exists st. auto. }
  destruct (startswith (str_upper (strip raw)) "TO ").
  - destruct (Nat.eqb _ 2).
    + destruct (_ =? "").
      * right. exists st. auto.
      * right. eexists. split; [rewrite open_chat_connected; exact C|]. split; [|reflexivity].
        unfold open_chat. destruct (strip _ =? ""); [reflexivity|].
        destruct (current_target st) as [p|]; [destruct (_ && _)|]; reflexivity.
    + left. exists (set_disconnected st). reflexivity.
  - unfold send_to_current. destruct (current_target st) as [t|].
    + destruct (negb (truthy (Some t))).
      * right. exists st. auto.
      * left. exists (set_disconnected st). reflexivity.
    + right. exists st. auto.
Qed.

Lemma run_cli_failed_send_witness :
  (exists st1, run_cli (chatting (Some "A") []) [("hi", false)] = close st1) \/
  (exists st1, connected st1 = true /\ wire st1 = wire (chatting (Some "A") []) /\
               run_cli (chatting (Some "A") []) [("hi", false)] = run_cli st1 []).
Proof. apply run_cli_failed_send. reflexivity. Defined.




(** A word: no whitespace. *)
Fixpoint no_ws (s : string) : bool :=
  match s with
  | EmptyString => true
  | String c r => negb (is_ws c) && no_ws r
  end.

Lemma rstrip_word (w : string) : no_ws w = true -> rstrip w = w.
Proof.
  induction w as [|c w IH]; simpl; [reflexivity|].
  intros H. apply andb_prop in H as [H1 H2]. rewrite (IH H2).
  apply negb_true_iff in H1. rewrite H1, andb_false_r. reflexivity.
Qed.

Lemma lstrip_word (w s : string) : no_ws w = true -> w <> "" -> lstrip (w ++ s) = w ++ s.
Proof.
  destruct w as [|c w]; [congruence|]. simpl. intros H _.
  apply andb_prop in H as [H1 _]. apply negb_true_iff in H1. now rewrite H1.
Qed.

Lemma take_token_word (w s : string) :
  no_ws w = true -> (s = "" \/ exists c r, s = String c r /\ is_ws c = true) ->
  take_token (w ++ s) = (w, s).
Proof.
  intros H Hs. induction w as [|c w IH]; simpl.
  - destruct Hs as [->|[c [r [-> Hc]]]]; simpl; [reflexivity|]. now rewrite Hc.
  - simpl in H. apply andb_prop in H as [H1 H2]. apply negb_true_iff in H1.
    rewrite H1, (IH H2). reflexivity.
Qed.

Lemma string_app_nil_r (s : string) : s ++ "" = s.
Proof. induction s as [|c s IH]; simpl; [reflexivity | now rewrite IH]. Qed.

Lemma split_ws_to_word (w : string) :
  no_ws w = true -> w <> "" -> split_ws 2 ("TO " ++ w) = ["TO"; w].
Proof.
  intros H Hw. simpl.
  assert (E := lstrip_word w "" H Hw). rewrite string_app_nil_r in E. rewrite E.
  apply String.eqb_neq in Hw as Hw'. rewrite Hw'.
  assert (T := take_token_word w "" H (or_introl eq_refl)).
  rewrite string_app_nil_r in T. rewrite T. reflexivity.
Qed.

Lemma strip_to_word (w : string) : no_ws w = true -> w <> "" -> strip ("TO " ++ w) = "TO " ++ w.
Proof.
  intros H Hw. unfold strip. change (lstrip ("TO " ++ w)) with ("TO " ++ w).
  rewrite (rstrip_app "TO " w); rewrite (rstrip_word w H); [reflexivity | exact Hw].
Qed.

Lemma strip_word (w : string) : no_ws w = true -> w <> "" -> strip w = w.
Proof.
  intros H Hw. unfold strip.
  assert (E := lstrip_word w "" H Hw). rewrite string_app_nil_r in E. rewrite E.
  apply rstrip_word, H.
Qed.

(** X13.  [TO <word>] (one word, no message) opens a chat with exactly that
    word and sends nothing, whatever the send outcome of the line. *)
Theorem run_cli_to_word (st : session) (w : string) (ok : bool) (more : list (string * bool)) :
  connected st = true -> no_ws w = true -> w <> "" ->
  run_cli st (("TO " ++ w, ok) :: more) = run_cli (open_chat st w) more.
Proof.
  intros C H Hw. cbn [run_cli]. rewrite C. simpl negb. cbn iota.
  rewrite (strip_to_word w H Hw).
  assert (E1 : ("TO " ++ w =? "") = false) by reflexivity.
  assert (E2 : (str_lower ("TO " ++ w) =? "exit") = false) by reflexivity.
  assert (E3 : (str_lower ("TO " ++ w) =? "quit") = false) by reflexivity.
  assert (E4 : (str_upper ("TO " ++ w) =? "END") = false) by reflexivity.
  assert (E5 : startswith (str_upper ("TO " ++ w)) "TO " = true)
    by exact (startswith_app "TO " (str_upper w)).
  rewrite E1, E2, E3, E4, E5, (split_ws_to_word w H Hw).
  simpl Nat.eqb. simpl nth_error. cbn iota.
  rewrite (strip_word w H Hw). apply String.eqb_neq in Hw. rewrite Hw. reflexivity.
Qed.

Lemma run_cli_to_word_witness :
  run_cli (chatting None []) [("TO " ++ "bob", false)] = run_cli (open_chat (chatting None []) "bob") [].
Proof. apply run_cli_to_word; [reflexivity | reflexivity | discriminate]. Defined.

Lemma string_length_app (a b : string) : String.length (a ++ b) = String.length a + String.length b.
Proof. induction a as [|c a IH]; simpl; [reflexivity | now rewrite IH]. Qed.

Lemma endswith_inv (s suf : string) : endswith s suf = true -> exists t, s = t ++ suf.
Proof.
  induction s as [|c s IH]; intros H.
  - destruct suf; [exists ""; reflexivity | discriminate].
  - change (((String c s =? suf) || endswith s suf) = true) in H.
    apply orb_prop in H as [H|H].
    + apply String.eqb_eq in H. exists "". simpl. congruence.
    + destruct (IH H) as [t ->]. exists (String c t). reflexivity.
Qed.

Lemma rstrip_app_nl (t : string) : rstrip (t ++ nl) = rstrip t.
Proof. induction t as [|c t IH]; simpl; [reflexivity | now rewrite IH]. Qed.

(** A stripped line never ends with a newline. *)
Lemma rstrip_fixed_no_nl (s : string) : rstrip s = s -> endswith s nl = false.
Proof.
  intros H. destruct (endswith s nl) eqn:E; [|reflexivity].
  destruct (endswith_inv s nl E) as [t ->].
  rewrite rstrip_app_nl in H. assert (L := rstrip_length t).
  rewrite H, string_length_app in L. simpl in L. lia.
Qed.

Lemma split_ws_to_word_msg (w m : string) :
  no_ws w = true -> w <> "" -> strip m = m -> m <> "" ->
  split_ws 2 ("TO " ++ w ++ " " ++ m) = ["TO"; w; m].
Proof.
  intros H Hw Hm Hm0. destruct (strip_fixed m Hm) as [Lm Rm].
  change (split_ws 2 ("TO " ++ w ++ " " ++ m)) with ("TO" :: split_ws 1 (" " ++ w ++ " " ++ m)).
  f_equal. cbn [split_ws].
  change (lstrip (" " ++ w ++ " " ++ m)) with (lstrip (w ++ " " ++ m)).
  rewrite (lstrip_word w _ H Hw).
  rewrite (take_token_word w (" " ++ m) H).
  2: { right. exists " "%char, m. split; reflexivity. }
  assert (E : (w ++ " " ++ m =? "") = false) by (destruct w; [congruence | reflexivity]).
  rewrite E. cbn iota. f_equal. cbn [split_ws]. change (lstrip (" " ++ m)) with (lstrip m). rewrite Lm.
  apply String.eqb_neq in Hm0. rewrite Hm0. reflexivity.
Qed.

(** X14.  [TO <word> <message>] (message already stripped, not empty)
    sends the whole line once, newline-terminated, as a one-off: the chat
    target and history stay as they were. *)
Theorem run_cli_to_word_message (st : session) (w m : string) (more : list (string * bool)) :
  connected st = true -> no_ws w = true -> w <> "" -> strip m = m -> m <> "" ->
  run_cli st (("TO " ++ w ++ " " ++ m, true) :: more) =
  run_cli (write_wire (("TO " ++ w ++ " " ++ m) ++ nl) st) more.
Proof.
  intros C H Hw Hm Hm0. destruct (strip_fixed m Hm) as [Lm Rm].
  assert (S : strip ("TO " ++ w ++ " " ++ m) = "TO " ++ w ++ " " ++ m).
  { unfold strip. change (lstrip ("TO " ++ w ++ " " ++ m)) with ("TO " ++ w ++ " " ++ m).
    assert (R1 : rstrip (" " ++ m) = " " ++ m) by (rewrite rstrip_app; rewrite Rm; congruence).
    assert (R2 : rstrip (w ++ " " ++ m) = w ++ " " ++ m)
      by (rewrite rstrip_app; rewrite R1; [reflexivity | discriminate]).
    rewrite rstrip_app; rewrite R2; [reflexivity|].
    destruct w; [congruence | discriminate]. }
  cbn [run_cli]. rewrite C. simpl negb. cbn iota. rewrite S.
  assert (E1 : ("TO " ++ w ++ " " ++ m =? "") = false) by reflexivity.
  assert (E2 : (str_lower ("TO " ++ w ++ " " ++ m) =? "exit") = false) by reflexivity.
  assert (E3 : (str_lower ("TO " ++ w ++ " " ++ m) =? "quit") = false) by reflexivity.
  assert (E4 : (str_upper ("TO " ++ w ++ " " ++ m) =? "END") = false) by reflexivity.
  assert (E5 : startswith (str_upper ("TO " ++ w ++ " " ++ m)) "TO " = true)
    by exact (startswith_app "TO " (str_upper (w ++ " " ++ m))).
  rewrite E1, E2, E3, E4, E5, (split_ws_to_word_msg w m H Hw Hm Hm0).
  simpl Nat.eqb. cbn iota. unfold send_one_off.
  assert (Sr : rstrip ("TO " ++ w ++ " " ++ m) = "TO " ++ w ++ " " ++ m)
    by exact S.
  rewrite (rstrip_fixed_no_nl _ Sr). reflexivity.
Qed.

Lemma run_cli_to_word_message_witness :
  run_cli (chatting (Some "A") []) [("TO " ++ "bob" ++ " " ++ "hi", true)] =
  run_cli (write_wire (("TO " ++ "bob" ++ " " ++ "hi") ++ nl) (chatting (Some "A") [])) [].
Proof.
  apply run_cli_to_word_message; [reflexivity | reflexivity | discriminate | reflexivity | discriminate].
Defined.

(** A [HELLO] line of a stripped, non-empty name. *)
Definition hello_line (l : string) : Prop :=
  exists n, n <> "" /\ strip n = n /\ l = "HELLO " ++ n ++ nl.

Definition hs_wire (st : session) (nm : string) (st1 : session) : Prop :=
  wire st1 = wire st \/
  (strip nm <> "" /\ wire st1 = (wire st ++ [("HELLO " ++ strip nm ++ nl)%string])%list).

Lemma handshake_cases (st : session) (nm : string) (ok : bool) (rep : option string) :
  (exists st1, handshake st nm ok rep = ("EXIT", st1) /\ hs_wire st nm st1) \/
  handshake st nm ok rep = ("RETRY", st) \/
  (strip nm <> "" /\
   handshake st nm ok rep = ("RETRY", write_wire ("HELLO " ++ strip nm ++ nl) st)) \/
  (strip nm <> "" /\
   handshake st nm ok rep = ("OK", set_name (strip nm) (write_wire ("HELLO " ++ strip nm ++ nl) st))).
Proof.
  unfold handshake. destruct (strip nm =? "") eqn:E; [right; left; reflexivity|].
  apply String.eqb_neq in E. destruct ok; simpl.
  2: { left. exists (set_disconnected st). split; [reflexivity | left; reflexivity]. }
  destruct rep as [raw|].
  2: { left. eexists. split; [reflexivity | right; split; [exact E | reflexivity]]. }
  destruct (contains _ _).
  { left. eexists. split; [reflexivity | right; split; [exact E | reflexivity]]. }
  destruct (startswith _ "ERR"); [right; right; left; split; [exact E | reflexivity]|].
  destruct (startswith _ "OK");
    [right; right; right; split; [exact E | reflexivity] | right; right; left; split; [exact E | reflexivity]].
Qed.

Lemma hello_line_of (nm : string) : strip nm <> "" -> hello_line ("HELLO " ++ strip nm ++ nl).
Proof. intros H. exists (strip nm). split; [exact H | split; [apply strip_idem | reflexivity]]. Qed.

Lemma hs_wire_hello (st st1 : session) (nm : string) :
  hs_wire st nm st1 -> Forall hello_line (wire st) ->
  Forall hello_line (wire st1) /\ List.length (wire st1) <= List.length (wire st) + 1.
Proof.
  intros [E|[Hn E]] H; rewrite E; [split; [exact H | lia]|].
  rewrite length_app. simpl. split; [|lia].
  apply Forall_app; split; [exact H | constructor; [apply hello_line_of, Hn | constructor]].
Qed.

Lemma main_loop_wire (f : nat) (st : session) (nm : string) (ins : list string)
    (reps : list (bool * option string)) :
  Forall hello_line (wire st) ->
  Forall hello_line (wire (snd (main_loop f st nm ins reps))) /\
  List.length (wire (snd (main_loop f st nm ins reps))) <= List.length (wire st) + List.length reps.
Proof.
  revert st nm ins reps. induction f as [|f IH]; intros st nm ins reps H; cbn [main_loop].
  - simpl. split; [exact H | lia].
  - destruct (nm =? "").
    + destruct ins as [|i ins]; [simpl; split; [exact H | lia] | apply IH, H].
    + destruct reps as [|[ok rep] reps]; [simpl; split; [exact H | lia]|].
      cbn [List.length].
      destruct (handshake_cases st nm ok rep) as [[st1 [Eh Hw]]|[Eh|[[Hn Eh]|[Hn Eh]]]];
        rewrite Eh; cbn iota.
      * destruct (hs_wire_hello st st1 nm Hw H) as [A B]. simpl. split; [exact A | lia].
      * simpl. destruct ins as [|i ins]; [simpl; split; [exact H | lia]|].
        destruct (IH st (strip i) ins reps H) as [A B]. split; [exact A | lia].
      * assert (Hw : hs_wire st nm (write_wire ("HELLO " ++ strip nm ++ nl) st))
          by (right; split; [exact Hn | reflexivity]).
        destruct (hs_wire_hello _ _ nm Hw H) as [A B].
        remember (write_wire ("HELLO " ++ strip nm ++ nl) st) as st1 eqn:Est. simpl.
        destruct ins as [|i ins]; [simpl; split; [exact A | lia]|].
        destruct (IH st1 (strip i) ins reps A) as [A' B']. split; [exact A' | lia].
      * assert (Hw : hs_wire st nm (set_name (strip nm) (write_wire ("HELLO " ++ strip nm ++ nl) st)))
          by (right; split; [exact Hn | reflexivity]).
        destruct (hs_wire_hello _ _ nm Hw H) as [A B].
        remember (set_name (strip nm) (write_wire ("HELLO " ++ strip nm ++ nl) st)) as st1 eqn:Est.
        simpl. split; [exact A | lia].
Qed.

(** X15.  Start-up sends nothing but [HELLO] lines, each carrying a
    stripped, non-empty name, and at most one per handshake reply: an empty
    name never reaches the server, whatever is typed or received. *)
Theorem main_start_hello_lines (c : bool) (argv1 : option string) (ins : list string)
    (reps : list (bool * option string)) :
  Forall hello_line (wire (snd (main_start c argv1 ins reps))) /\
  List.length (wire (snd (main_start c argv1 ins reps))) <= List.length reps.
Proof.
  assert (L : forall f nm ins' reps',
    Forall hello_line (wire (snd (main_loop f (set_connected true init_session) nm ins' reps'))) /\
    List.length (wire (snd (main_loop f (set_connected true init_session) nm ins' reps')))
      <= List.length reps').
  { intros f nm ins' reps'.
    destruct (main_loop_wire f (set_connected true init_session) nm ins' reps' (Forall_nil _))
      as [A B].
    split; [exact A | exact B]. }
  destruct c; cbv [main_start connect negb]; cbn beta iota zeta; [|split; [constructor | simpl; lia]].
  destruct argv1 as [a|]; [apply L|].
  destruct ins as [|i ins]; [simpl; split; [constructor | lia] | apply L].
Qed.

Lemma main_loop_ok (f : nat) (st : session) (nm : string) (ins : list string)
    (reps : list (bool * option string)) :
  connected st = true -> current_target st = None -> target_stack st = [] ->
  fst (main_loop f st nm ins reps) = "OK" ->
  let s := snd (main_loop f st nm ins reps) in
  connected s = true /\ name s <> "" /\ strip (name s) = name s /\
  current_target s = None /\ target_stack s = [] /\
  exists hs, wire s = (hs ++ [("HELLO " ++ name s ++ nl)%string])%list.
Proof.
  revert st nm ins reps. induction f as [|f IH]; intros st nm ins reps C T K; cbn [main_loop].
  - simpl. discriminate.
  - destruct (nm =? "").
    + destruct ins as [|i ins]; [simpl; discriminate | apply IH; assumption].
    + destruct reps as [|[ok rep] reps]; [simpl; discriminate|].
      destruct (handshake_cases st nm ok rep) as [[st1 [Eh Hw]]|[Eh|[[Hn Eh]|[Hn Eh]]]];
        rewrite Eh; cbn iota.
      * simpl. discriminate.
      * simpl. destruct ins as [|i ins]; [simpl; discriminate | apply IH; assumption].
      * simpl. destruct ins as [|i ins]; [simpl; discriminate | apply IH; assumption].
      * simpl. intros _. split; [exact C|]. split; [exact Hn|]. split; [apply strip_idem|].
        split; [exact T|]. split; [exact K|]. exists (wire st). reflexivity.
Qed.

(** X16.  When start-up reports "OK", the session is connected, has no
    chat open, and is named with a stripped, non-empty name, which is the
    name of the last [HELLO] line sent. *)
Theorem main_start_ok (c : bool) (argv1 : option string) (ins : list string)
    (reps : list (bool * option string)) :
  fst (main_start c argv1 ins reps) = "OK" ->
  let s := snd (main_start c argv1 ins reps) in
  connected s = true /\ name s <> "" /\ strip (name s) = name s /\
  current_target s = None /\ target_stack s = [] /\
  exists hs, wire s = (hs ++ [("HELLO " ++ name s ++ nl)%string])%list.
Proof.
  destruct c; cbv [main_start connect negb]; cbn beta iota zeta; [|simpl; discriminate].
  destruct argv1 as [a|]; [apply main_loop_ok; reflexivity|].
  destruct ins as [|i ins]; [simpl; discriminate | apply main_loop_ok; reflexivity].
Qed.

Lemma main_start_ok_witness :
  fst (main_start true (Some " bob ") [] [(true, Some "OK")]) = "OK" /\
  name (snd (main_start true (Some " bob ") [] [(true, Some "OK")])) <> "".
Proof.
  assert (E : fst (main_start true (Some " bob ") [] [(true, Some "OK")]) = "OK")
    by reflexivity.
  split; [exact E|].
  apply (main_start_ok true (Some " bob ") [] [(true, Some "OK")] E).
Defined.
